(** * The Jira issue pipeline of [utils/jira_pipeline.py]

    A shallow embedding of the text sanitizer ([clean_text]), the issue
    normalizer ([normalize_issues]), the persistence writer
    ([save_to_jsonl]) and the fetch orchestrator ([fetch_jira_tokens]),
    followed by the properties the design document states about them.

    Conventions of the embedding:
    - a Python [str] is the list of its code points ([pystr]); a text file
      holds such a text, its encoding left out;
    - a value decoded from JSON is a [json] tree, a [dict] being the list of
      its items in insertion order;
    - a Python expression that may raise is a [result]: [Ok v] or [Raise e];
    - the file system, the standard output and the module-level
      [jira_client] are threaded explicitly as a [world];
    - the standard output and the files written are UTF-8 streams with the
      strict error handler: a text that holds a lone surrogate cannot be
      printed, serialized or written.

    What the libraries do is either written out ([re] on the three patterns
    of the source, [json.dumps], the validation and [model_dump_json] of
    the pydantic models) or taken as a variable of the section [Pipeline]
    (the text nodes [html.parser] finds, the character classes beyond
    ASCII, the wording of library exceptions). *)

From Stdlib Require Import ZArith NArith List String Ascii Bool Lia DecimalString.
From stdpp Require Import base option list gmap.

(** ** Text *)

Definition pystr : Type := list N.

(** Code point of an ASCII character, and the text of an ASCII literal. *)
Definition chr (a : ascii) : N := N_of_ascii a.
Definition py (s : string) : pystr := map N_of_ascii (list_ascii_of_string s).

Definition LF : N := 10%N.
Definition CR : N := 13%N.

(** [separator.join(parts)]. *)
Fixpoint join (sep : pystr) (parts : list pystr) : pystr :=
  match parts with
  | [] => []
  | [p] => p
  | p :: rest => p ++ sep ++ join sep rest
  end.

(** What the UTF-8 codec with the strict error handler encodes: every
    text but those holding a surrogate code point (U+D800..U+DFFF), which
    a Python [str] can hold on its own. *)
Definition surrogate (c : N) : bool := ((55296 <=? c) && (c <=? 57343))%N.

Definition utf8_encodable (s : pystr) : bool :=
  forallb (fun c => negb (surrogate c)) s.

(** Character classes of [re] on the ASCII range.  [\s] is [str.isspace]:
    TAB..CR, FS..US and the space; [\w] is alphanumeric or underscore. *)
Definition ascii_space (c : N) : bool :=
  ((9 <=? c) && (c <=? 13) || (28 <=? c) && (c <=? 32))%N.

Definition ascii_word (c : N) : bool :=
  ((48 <=? c) && (c <=? 57) || (65 <=? c) && (c <=? 90)
   || (97 <=? c) && (c <=? 122) || (c =? 95))%N.

(** ** Regular expressions

    The fragment of [re] the pipeline uses: a pattern is a sequence of
    items, each one character of a class or a repetition [+] (greedy) or
    [+?] (lazy) of a class.  [match_at] is the backtracking matcher
    anchored at the head of the text; it returns the length of the match
    Python finds there. *)
Module Re.

Inductive item : Type :=
| Chr (c : N -> bool)
| Plus (greedy : bool) (c : N -> bool).

Definition regex : Type := list item.

Fixpoint match_at (r : regex) (s : pystr) : option nat :=
  match r with
  | [] => Some 0
  | Chr c :: r' =>
      match s with
      | x :: s' => if c x then S <$> match_at r' s' else None
      | [] => None
      end
  | Plus greedy c :: r' =>
      (fix more (s : pystr) : option nat :=
         match s with
         | x :: s' =>
             if c x then
               if greedy then
                 match more s' with
                 | Some k => Some (S k)
                 | None => S <$> match_at r' s'
                 end
               else
                 match match_at r' s' with
                 | Some k => Some (S k)
                 | None => S <$> more s'
                 end
             else None
         | [] => None
         end) s
  end.

(** [re.sub(r, repl, s)] for a pattern that matches no empty text: scan
    from the left; where the pattern matches, emit [repl] and resume after
    the match, otherwise copy one character.  [skip] counts the characters
    of the current match still to be dropped. *)
Fixpoint sub_from (r : regex) (repl : pystr) (skip : nat) (s : pystr) : pystr :=
  match s with
  | [] => []
  | x :: s' =>
      match skip with
      | S k => sub_from r repl k s'
      | O =>
          match match_at r s with
          | Some (S k) => repl ++ sub_from r repl k s'
          | _ => x :: sub_from r repl 0 s'
          end
      end
  end.

Definition sub (r : regex) (repl : pystr) (s : pystr) : pystr :=
  sub_from r repl 0 s.

(** The language of a pattern, independently of any matching strategy. *)
Fixpoint matches (r : regex) (s : pystr) : Prop :=
  match r with
  | [] => s = []
  | Chr c :: r' => exists x s', s = x :: s' /\ c x = true /\ matches r' s'
  | Plus _ c :: r' =>
      exists run s', s = run ++ s' /\ run <> [] /\
                     forallb c run = true /\ matches r' s'
  end.

(** No part of [s] is in the language of [r]. *)
Definition free_of (r : regex) (s : pystr) : Prop :=
  forall u m v, s = u ++ m ++ v -> ~ matches r m.

End Re.

(** ** JSON values

    What [json.loads] builds: [None], [bool], [int], [float], [str], [list]
    and [dict].  A [float] is kept as the two observations the pipeline
    makes of it: whether it is non-zero, and the text [json.dumps] prints
    for it. *)

#[warnings="-register-all"]
Inductive json : Type :=
| JNull
| JBool (b : bool)
| JInt (z : Z)
| JFloat (nonzero : bool) (repr : pystr)
| JStr (s : pystr)
| JArr (l : list json)
| JObj (d : list (pystr * json)).


Definition QUOTE : N := 34%N.
Definition BACKSLASH : N := 92%N.

Module Json.

(** [bool(v)]. *)
Definition truthy (v : json) : bool :=
  match v with
  | JNull => false
  | JBool b => b
  | JInt z => negb (z =? 0)%Z
  | JFloat nonzero _ => nonzero
  | JStr [] | JArr [] | JObj [] => false
  | JStr _ | JArr _ | JObj _ => true
  end.

(** [type(v).__name__]. *)
Definition type_name (v : json) : pystr :=
  match v with
  | JNull => py "NoneType"
  | JBool _ => py "bool"
  | JInt _ => py "int"
  | JFloat _ _ => py "float"
  | JStr _ => py "str"
  | JArr _ => py "list"
  | JObj _ => py "dict"
  end.

(** Item lookup in a [dict]. *)
Fixpoint lookup (k : pystr) (d : list (pystr * json)) : option json :=
  match d with
  | [] => None
  | (k', v) :: d' => if decide (k' = k) then Some v else lookup k d'
  end.

(** *** [json.dumps] with its defaults: [ensure_ascii], and the separators
    comma-space and colon-space. *)

Definition hex_digit (n : N) : N :=
  if (n <? 10)%N then (48 + n)%N else (87 + n)%N.

(** The escape of a 16-bit unit: backslash, [u], four hexadecimal digits. *)
Definition u_escape (n : N) : pystr :=
  [BACKSLASH; chr "u";
   hex_digit (n / 4096 mod 16); hex_digit (n / 256 mod 16);
   hex_digit (n / 16 mod 16); hex_digit (n mod 16)]%N.

Definition escape_ascii (c : N) : pystr :=
  if (c =? QUOTE)%N then [BACKSLASH; QUOTE]
  else if (c =? BACKSLASH)%N then [BACKSLASH; BACKSLASH]
  else if (c =? 10)%N then [BACKSLASH; chr "n"]
  else if (c =? 13)%N then [BACKSLASH; chr "r"]
  else if (c =? 9)%N then [BACKSLASH; chr "t"]
  else if (c =? 8)%N then [BACKSLASH; chr "b"]
  else if (c =? 12)%N then [BACKSLASH; chr "f"]
  else if ((32 <=? c) && (c <=? 126))%N then [c]
  else if (c <? 65536)%N then u_escape c
  else
    let n := (c - 65536)%N in
    u_escape (N.lor 55296 (N.land (N.shiftr n 10) 1023))
    ++ u_escape (N.lor 56320 (N.land n 1023)).

Definition dumps_str (s : pystr) : pystr :=
  QUOTE :: flat_map escape_ascii s ++ [QUOTE].

Fixpoint dumps (v : json) : pystr :=
  match v with
  | JNull => py "null"
  | JBool true => py "true"
  | JBool false => py "false"
  | JInt z => py (NilZero.string_of_int (Z.to_int z))
  | JFloat _ repr => repr
  | JStr s => dumps_str s
  | JArr l => chr "[" :: join (py ", ") (map dumps l) ++ [chr "]"]
  | JObj d =>
      chr "{"
      :: join (py ", ")
           (map (fun '(k, x) => dumps_str k ++ py ": " ++ dumps x) d)
      ++ [chr "}"]
  end.

End Json.

(** ** Exceptions and results

    The exceptions of the pipeline, all of them of the kind
    [except Exception] catches. *)

Inductive exn : Type :=
| RuntimeError (msg : pystr)
| AttributeError (v : json) (attr : pystr)
    (* 'T' object has no attribute 'attr' *)
| NotIterable (v : json)
    (* TypeError: 'T' object is not iterable *)
| NotText (v : json)
    (* TypeError of BeautifulSoup or re.sub given a value that is no text *)
| ParserError
    (* whatever html.parser raises on a text it rejects *)
| ValidationError (errors : list (pystr * json))
    (* pydantic: the fields whose value is neither str nor None *)
| OSError (filename : pystr)
| Fault (descr : pystr)
    (* raised by the Jira client; [descr] is its str() *)
| UnicodeEncodeError (text : pystr)
    (* the codec of a stream refuses [text] *)
| PydanticSerializationError (text : pystr)
    (* [model_dump_json] on a record whose field [text] is no valid
       Unicode text *)
| HTTPException (status_code : Z) (detail : pystr).

Inductive result (A : Type) : Type :=
| Ok (a : A)
| Raise (e : exn).
Arguments Ok {A} a.
Arguments Raise {A} e.

#[global] Instance result_ret : MRet result := fun _ a => Ok a.
#[global] Instance result_bind : MBind result := fun _ _ f m =>
  match m with
  | Ok a => f a
  | Raise e => Raise e
  end.

(** [try: body except Exception as e: handler(e)]. *)
Definition try_except {A} (body : result A) (handler : exn -> result A)
  : result A :=
  match body with
  | Ok a => Ok a
  | Raise e => handler e
  end.

(** [v.get(k, default)]: defined on a [dict] only. *)
Definition get (v : json) (k : pystr) (default : json) : result json :=
  match v with
  | JObj d => Ok (from_option (fun x => x) default (Json.lookup k d))
  | _ => Raise (AttributeError v (py "get"))
  end.

(** ** The pydantic models *)

Module JiraFetchRequest.
Record t : Type := mk {
  jql_query : pystr;
  limit : Z;
  save_to_file : bool;
  filename : pystr }.
End JiraFetchRequest.

Module JiraIssue.
Record t : Type := mk {
  id : option pystr;
  key : option pystr;
  summary : option pystr;
  description : option pystr;
  status : option pystr;
  priority : option pystr;
  created : option pystr;
  assignee : option pystr;
  project : option pystr }.

(** Validation of one [Optional[str]] field: [None] and [str] pass. *)
Definition valid (v : json) : bool :=
  match v with
  | JNull | JStr _ => true
  | _ => false
  end.

Definition optional_str (v : json) : option pystr :=
  match v with
  | JStr s => Some s
  | _ => None
  end.

(** [JiraIssue(id=..., key=..., ...)]: every field is validated, and the
    invalid ones are reported together. *)
Definition new (id key summary description status priority created
                assignee project : json) : result t :=
  let errors :=
    List.filter (fun kv => negb (valid kv.2))
      [(py "id", id); (py "key", key); (py "summary", summary);
       (py "description", description); (py "status", status);
       (py "priority", priority); (py "created", created);
       (py "assignee", assignee); (py "project", project)] in
  match errors with
  | [] =>
      Ok (mk (optional_str id) (optional_str key) (optional_str summary)
            (optional_str description) (optional_str status)
            (optional_str priority) (optional_str created)
            (optional_str assignee) (optional_str project))
  | _ => Raise (ValidationError errors)
  end.

(** *** [model_dump_json]: compact JSON, fields in declaration order,
    text written as it is but for the quote, the backslash and the control
    characters. *)
Definition escape (c : N) : pystr :=
  if (c =? QUOTE)%N then [BACKSLASH; QUOTE]
  else if (c =? BACKSLASH)%N then [BACKSLASH; BACKSLASH]
  else if (c =? 8)%N then [BACKSLASH; chr "b"]
  else if (c =? 9)%N then [BACKSLASH; chr "t"]
  else if (c =? 10)%N then [BACKSLASH; chr "n"]
  else if (c =? 12)%N then [BACKSLASH; chr "f"]
  else if (c =? 13)%N then [BACKSLASH; chr "r"]
  else if (c <? 32)%N then Json.u_escape c
  else [c].

Definition dump_str (s : pystr) : pystr :=
  QUOTE :: flat_map escape s ++ [QUOTE].

Definition dump_optional (v : option pystr) : pystr :=
  match v with
  | None => py "null"
  | Some s => dump_str s
  end.

Definition dump_field (name : string) (v : option pystr) : pystr :=
  QUOTE :: py name ++ QUOTE :: chr ":" :: dump_optional v.

(** The JSON text of a record whose texts can be serialized. *)
Definition to_json (i : t) : pystr :=
  chr "{" :: dump_field "id" (id i)
  ++ chr "," :: dump_field "key" (key i)
  ++ chr "," :: dump_field "summary" (summary i)
  ++ chr "," :: dump_field "description" (description i)
  ++ chr "," :: dump_field "status" (status i)
  ++ chr "," :: dump_field "priority" (priority i)
  ++ chr "," :: dump_field "created" (created i)
  ++ chr "," :: dump_field "assignee" (assignee i)
  ++ chr "," :: dump_field "project" (project i)
  ++ [chr "}"].

(** The texts a record holds, in the order of the fields. *)
Definition texts (i : t) : list pystr :=
  omap (fun field : option pystr => field)
    [id i; key i; summary i; description i; status i; priority i;
     created i; assignee i; project i].

(** [item.model_dump_json()]: the serializer writes UTF-8, and raises on
    the first text that holds a lone surrogate. *)
Definition model_dump_json (i : t) : result pystr :=
  match List.find (fun s => negb (utf8_encodable s)) (texts i) with
  | Some s => Raise (PydanticSerializationError s)
  | None => Ok (to_json i)
  end.

End JiraIssue.

Module JiraFetchResponse.
Record t : Type := mk {
  count : Z;
  issues : list JiraIssue.t;
  success : bool }.
End JiraFetchResponse.

(** ** The world: client handle, files, standard output *)

Record world : Type := World {
  jira_client : option (pystr -> Z -> result json);
    (* the module-level handle; the function is its [jql] method *)
  files : gmap pystr pystr;
    (* content of each file, by name *)
  unwritable : pystr -> bool;
    (* the targets [open(_, "w")] refuses *)
  stdout : list pystr }.

Definition with_files (f : gmap pystr pystr -> gmap pystr pystr)
    (w : world) : world :=
  World (jira_client w) (f (files w)) (unwritable w) (stdout w).

(** Computations that read and change the world and may raise. *)
Definition io (A : Type) : Type := world -> result A * world.

(** [print(line)].  The standard output is taken to be a UTF-8 stream with
    the strict error handler, as Python sets it up in a UTF-8 locale: a
    text it cannot encode raises, and nothing of it is written. *)
Definition print (line : pystr) : io unit := fun w =>
  if utf8_encodable line then
    (Ok tt,
     World (jira_client w) (files w) (unwritable w) (stdout w ++ [line]))
  else (Raise (UnicodeEncodeError line), w).

(** [open(filename, "w", encoding="utf-8")]: fails on a target that cannot
    be opened, otherwise leaves the file empty. *)
Definition open_w (filename : pystr) : io unit := fun w =>
  if unwritable w filename then (Raise (OSError filename), w)
  else (Ok tt, with_files (insert filename []) w).

(** [f.write(text)] on the file opened under [filename]: the text is
    encoded, which raises on a lone surrogate, and added to the file. *)
Definition write (filename text : pystr) : io unit := fun w =>
  if utf8_encodable text then
    (Ok tt, with_files (alter (fun content => content ++ text) filename) w)
  else (Raise (UnicodeEncodeError text), w).

Definition io_bind {A B} (m : io A) (k : A -> io B) : io B := fun w =>
  match m w with
  | (Ok a, w') => k a w'
  | (Raise e, w') => (Raise e, w')
  end.

Definition io_lift {A} (r : result A) : io A := fun w => (r, w).

Definition io_try {A} (body : io A) (handler : exn -> io A) : io A := fun w =>
  match body w with
  | (Ok a, w') => (Ok a, w')
  | (Raise e, w') => handler e w'
  end.

(** ** Reading a persisted target back

    The lines a text file yields when iterated (universal newlines: a line
    ends at LF, CR or CR LF), without their terminators. *)
Fixpoint lines_from (cur : pystr) (after_cr : bool) (s : pystr)
  : list pystr :=
  match s with
  | [] => if cur is [] then [] else [cur]
  | c :: s' =>
      if (c =? LF)%N then
        if after_cr then lines_from [] false s'
        else cur :: lines_from [] false s'
      else if (c =? CR)%N then cur :: lines_from [] true s'
      else lines_from (cur ++ [c]) false s'
  end.

Definition file_lines (content : pystr) : list pystr :=
  lines_from [] false content.

(** The text of a JSON Lines file holding [data]. *)
Definition jsonl (data : list JiraIssue.t) : pystr :=
  flat_map (fun item => JiraIssue.to_json item ++ [LF]) data.

(** The lines of [data] up to the first record that cannot be
    serialized: what a save has written when it stops, or ends. *)
Fixpoint written (data : list JiraIssue.t) : pystr :=
  match data with
  | [] => []
  | item :: rest =>
      match JiraIssue.model_dump_json item with
      | Ok line => line ++ LF :: written rest
      | Raise _ => []
      end
  end.

(** Every text of every record can be serialized. *)
Definition serializable (data : list JiraIssue.t) : bool :=
  forallb (fun item => forallb utf8_encodable (JiraIssue.texts item)) data.

(** ** Parsing a persisted line

    A reader for the lines [save_to_jsonl] writes: a JSON object holding
    the nine fields in order, each [null] or a JSON string. *)
Module Reader.

Fixpoint strip_prefix (p s : pystr) : option pystr :=
  match p, s with
  | [], _ => Some s
  | a :: p', b :: s' => if (a =? b)%N then strip_prefix p' s' else None
  | _ :: _, [] => None
  end.

Definition unhex (c : N) : option N :=
  if ((48 <=? c) && (c <=? 57))%N then Some (c - 48)%N
  else if ((97 <=? c) && (c <=? 102))%N then Some (c - 87)%N
  else if ((65 <=? c) && (c <=? 70))%N then Some (c - 55)%N
  else None.

(** The character a two-character escape stands for. *)
Definition unescape (e : N) : option N :=
  if (e =? QUOTE)%N then Some QUOTE
  else if (e =? BACKSLASH)%N then Some BACKSLASH
  else if (e =? chr "/")%N then Some (chr "/")
  else if (e =? chr "b")%N then Some 8%N
  else if (e =? chr "t")%N then Some 9%N
  else if (e =? chr "n")%N then Some 10%N
  else if (e =? chr "f")%N then Some 12%N
  else if (e =? chr "r")%N then Some 13%N
  else None.

(** The characters of a JSON string up to its closing quote, and the text
    after that quote. *)
Fixpoint string_body (s : pystr) : option (pystr * pystr) :=
  match s with
  | [] => None
  | c :: s' =>
      if (c =? QUOTE)%N then Some ([], s')
      else if (c =? BACKSLASH)%N then
        match s' with
        | [] => None
        | e :: s'' =>
            if (e =? chr "u")%N then
              match s'' with
              | h1 :: h2 :: h3 :: h4 :: s3 =>
                  match unhex h1, unhex h2, unhex h3, unhex h4 with
                  | Some a, Some b, Some c, Some d =>
                      match string_body s3 with
                      | Some (body, rest) =>
                          Some ((4096 * a + 256 * b + 16 * c + d)%N :: body,
                                rest)
                      | None => None
                      end
                  | _, _, _, _ => None
                  end
              | _ => None
              end
            else
              match unescape e, string_body s'' with
              | Some x, Some (body, rest) => Some (x :: body, rest)
              | _, _ => None
              end
        end
      else if (c <? 32)%N then None
      else
        match string_body s' with
        | Some (body, rest) => Some (c :: body, rest)
        | None => None
        end
  end.

(** [null] or a string. *)
Definition optional_str (s : pystr) : option (option pystr * pystr) :=
  match strip_prefix (py "null") s with
  | Some rest => Some (None, rest)
  | None =>
      match s with
      | c :: s' =>
          if (c =? QUOTE)%N then
            match string_body s' with
            | Some (body, rest) => Some (Some body, rest)
            | None => None
            end
          else None
      | [] => None
      end
  end.

(** One member of the object: [lead] (the brace or the comma), the quoted
    name, the colon, the value. *)
Definition field (lead : N) (name : string) (s : pystr)
  : option (option pystr * pystr) :=
  match strip_prefix (lead :: QUOTE :: py name ++ [QUOTE; chr ":"]) s with
  | Some rest => optional_str rest
  | None => None
  end.

Definition issue (line : pystr) : option JiraIssue.t :=
  '(id, s) ← field (chr "{") "id" line;
  '(key, s) ← field (chr ",") "key" s;
  '(summary, s) ← field (chr ",") "summary" s;
  '(description, s) ← field (chr ",") "description" s;
  '(status, s) ← field (chr ",") "status" s;
  '(priority, s) ← field (chr ",") "priority" s;
  '(created, s) ← field (chr ",") "created" s;
  '(assignee, s) ← field (chr ",") "assignee" s;
  '(project, s) ← field (chr ",") "project" s;
  if decide (s = [chr "}"]) then
    Some (JiraIssue.mk id key summary description status priority created
            assignee project)
  else None.

End Reader.

(** ** Sample environments

    Concrete choices for what the pipeline takes from outside; the
    examples below run on them. *)

(** No character beyond ASCII is in the class. *)
Definition ascii_only : N -> bool := fun _ => false.

(** A text extractor that cuts a markup text at its tags: the runs of
    characters outside [<...>], in order. *)
Fixpoint text_runs (in_tag : bool) (cur : pystr) (s : pystr) : list pystr :=
  match s with
  | [] => if cur is [] then [] else [cur]
  | c :: s' =>
      if in_tag then text_runs (negb (c =? chr ">")%N) [] s'
      else if (c =? chr "<")%N then
        (if cur is [] then [] else [cur]) ++ text_runs true [] s'
      else text_runs false (cur ++ [c]) s'
  end.

Definition cut_at_tags (s : pystr) : option (list pystr) :=
  Some (text_runs false [] s).

(** An extractor that rejects every text, so that the sanitizer takes its
    fallback. *)
Definition reject_all (s : pystr) : option (list pystr) := None.

Definition class_name_only (e : exn) : pystr :=
  match e with
  | ValidationError _ => py "ValidationError"
  | OSError _ => py "OSError"
  | NotText _ => py "TypeError"
  | _ => py "Exception"
  end.

(** ** The shape of a raw issue

    A raw issue is a mapping; each part of it the normalizer reads may be
    missing.  [well_formed] says that the parts that are there have the
    shape of the data model: texts where a text is read, mappings where a
    nested name is read, and a description that is a text or a mapping. *)
Module RawIssue.

(** Missing, [null] or a text. *)
Definition text_or_absent (o : option json) : bool :=
  match o with
  | None | Some JNull | Some (JStr _) => true
  | Some _ => false
  end.

(** Missing, empty, a text or a mapping. *)
Definition description_ok (o : option json) : bool :=
  match o with
  | None | Some (JStr _) | Some (JObj _) => true
  | Some v => negb (Json.truthy v)
  end.

(** Missing, or a mapping whose [name] is a text or absent. *)
Definition named (name : pystr) (o : option json) : bool :=
  match o with
  | None => true
  | Some (JObj d) => text_or_absent (Json.lookup name d)
  | Some _ => false
  end.

(** As [named], and the parent may also be [null] (or empty). *)
Definition named_or_null (name : pystr) (o : option json) : bool :=
  match o with
  | None => true
  | Some v => negb (Json.truthy v) || named name (Some v)
  end.

Definition fields_ok (f : list (pystr * json)) : bool :=
  text_or_absent (Json.lookup (py "summary") f)
  && description_ok (Json.lookup (py "description") f)
  && named (py "name") (Json.lookup (py "status") f)
  && named (py "name") (Json.lookup (py "priority") f)
  && text_or_absent (Json.lookup (py "created") f)
  && named_or_null (py "displayName") (Json.lookup (py "assignee") f)
  && named_or_null (py "name") (Json.lookup (py "project") f).

Definition well_formed (issue : json) : bool :=
  match issue with
  | JObj d =>
      text_or_absent (Json.lookup (py "id") d)
      && text_or_absent (Json.lookup (py "key") d)
      && match Json.lookup (py "fields") d with
         | None => true
         | Some (JObj f) => fields_ok f
         | Some _ => false
         end
  | _ => false
  end.

(** The mapping under [fields], when it is there. *)
Definition fields_of (issue : json) : option (list (pystr * json)) :=
  match issue with
  | JObj d =>
      match Json.lookup (py "fields") d with
      | Some (JObj f) => Some f
      | _ => None
      end
  | _ => None
  end.

(** The parent object under [fields.name] is not there: [fields] is
    missing, or it is a mapping without that key. *)
Definition parent_missing (name : pystr) (issue : json) : bool :=
  match issue with
  | JObj d =>
      match Json.lookup (py "fields") d with
      | None => true
      | Some (JObj f) => bool_decide (Json.lookup name f = None)
      | Some _ => false
      end
  | _ => false
  end.

(** The text found by following [path] through nested mappings; [None]
    when a key on the way is missing or what is found is no text. *)
Fixpoint at_path (path : list pystr) (v : json) : option pystr :=
  match path with
  | [] => JiraIssue.optional_str v
  | k :: rest =>
      match v with
      | JObj d =>
          match Json.lookup k d with
          | Some v' => at_path rest v'
          | None => None
          end
      | _ => None
      end
  end.

(** The value under [fields.description]; [null] when it is missing. *)
Definition description_of (issue : json) : json :=
  match fields_of issue with
  | Some f => from_option (fun x => x) JNull (Json.lookup (py "description") f)
  | None => JNull
  end.

(** The flat record the data model describes: every field but the
    description is the text at its fixed path. *)
Definition flat (issue : json) (description : pystr) : JiraIssue.t :=
  JiraIssue.mk
    (at_path [py "id"] issue)
    (at_path [py "key"] issue)
    (at_path [py "fields"; py "summary"] issue)
    (Some description)
    (at_path [py "fields"; py "status"; py "name"] issue)
    (at_path [py "fields"; py "priority"; py "name"] issue)
    (at_path [py "fields"; py "created"] issue)
    (at_path [py "fields"; py "assignee"; py "displayName"] issue)
    (at_path [py "fields"; py "project"; py "name"] issue).

End RawIssue.

(** The raw issue of the design document's scenario, and the record it is
    to normalize to. *)
Definition scenario_markup : pystr :=
  py "<p>Crash on <b>login</b> for bob@example.com</p>".

Definition scenario_issue : json :=
  JObj [(py "id", JStr (py "1"));
        (py "key", JStr (py "PRJ-1"));
        (py "fields",
         JObj [(py "summary", JStr (py "Bug"));
               (py "description", JStr scenario_markup);
               (py "status", JObj [(py "name", JStr (py "Open"))]);
               (py "priority", JObj [(py "name", JStr (py "High"))]);
               (py "created", JStr (py "2024-01-01"));
               (py "assignee", JObj [(py "displayName", JStr (py "Bob"))]);
               (py "project", JObj [(py "name", JStr (py "Core"))])])].

Definition scenario_normalized : JiraIssue.t :=
  JiraIssue.mk (Some (py "1")) (Some (py "PRJ-1")) (Some (py "Bug"))
    (Some (py "Crash on login for [REDACTED]"))
    (Some (py "Open")) (Some (py "High")) (Some (py "2024-01-01"))
    (Some (py "Bob")) (Some (py "Core")).

(** An issue that has neither an assignee nor a description. *)
Definition sparse_issue : json :=
  JObj [(py "id", JStr (py "2"));
        (py "key", JStr (py "PRJ-2"));
        (py "fields",
         JObj [(py "summary", JStr (py "Typo"));
               (py "status", JObj [(py "name", JStr (py "Open"))])])].

(** An issue whose priority is there, but [null]. *)
Definition null_priority_issue : json :=
  JObj [(py "id", JStr (py "3"));
        (py "fields", JObj [(py "priority", JNull)])].

(** A client that answers every query with the scenario's issue followed by
    the sparse one, and a client that is down. *)
Definition client_up (jql : pystr) (limit : Z) : result json :=
  Ok (JObj [(py "total", JInt 2);
            (py "issues", JArr [scenario_issue; sparse_issue])]).

Definition client_down (jql : pystr) (limit : Z) : result json :=
  Raise (Fault (py "connection refused")).

(** A client whose only issue has a [null] priority. *)
Definition client_odd (jql : pystr) (limit : Z) : result json :=
  Ok (JObj [(py "issues", JArr [null_priority_issue])]).

(** A world with one file, which a run might overwrite. *)
Definition old_files : gmap pystr pystr :=
  {[ py "jira_data.jsonl" := py "stale" ]}.

Definition world_up : world :=
  World (Some client_up) old_files (fun _ => false) [].

Definition world_down : world :=
  World (Some client_down) old_files (fun _ => false) [].

Definition world_odd : world :=
  World (Some client_odd) old_files (fun _ => false) [].

Definition world_read_only : world :=
  World (Some client_up) old_files (fun _ => true) [].

Definition save_request : JiraFetchRequest.t :=
  JiraFetchRequest.mk (py "project = PRJ") 50 true (py "jira_data.jsonl").

Definition plain_request : JiraFetchRequest.t :=
  JiraFetchRequest.mk (py "project = PRJ") 50 false (py "jira_data.jsonl").

Definition sparse_normalized : JiraIssue.t :=
  JiraIssue.mk (Some (py "2")) (Some (py "PRJ-2")) (Some (py "Typo"))
    (Some []) (Some (py "Open")) None None None None.

(** A description in the structured format: a mapping. *)
Definition structured_description : list (pystr * json) :=
  [(py "type", JStr (py "doc")); (py "version", JInt 1)].

(** A text with runs of blanks, line feeds and a tab. *)
Definition ragged_text : pystr :=
  [chr "a"; LF; LF; chr " "; chr " "; chr "b"; 9%N; chr " "; chr "c"].

(** ** Start-up: [initialize_jira_client]

    The process environment is a map from names to texts; [Jira] stands for
    the constructor of the client library: from a URL, a user name, a
    password and the [cloud] flag it builds a client, given here by what
    its [jql] method answers. *)

(** [os.getenv(name)]. *)
Definition getenv (environ : gmap pystr pystr) (name : pystr)
  : option pystr :=
  environ !! name.

(** [bool(x)] for what [os.getenv] returns: a text that is not empty. *)
Definition set_and_not_empty (x : option pystr) : bool :=
  match x with
  | Some (_ :: _) => true
  | _ => false
  end.

(** [a or b]. *)
Definition py_or (a b : option pystr) : option pystr :=
  if set_and_not_empty a then a else b.

Definition with_client (client : pystr -> Z -> result json) (w : world)
  : world :=
  World (Some client) (files w) (unwritable w) (stdout w).

(** In the branch that builds the client the three values are texts; the
    default of [from_option] is never reached there. *)
Definition initialize_jira_client (environ : gmap pystr pystr)
    (Jira : pystr -> pystr -> pystr -> bool -> pystr -> Z -> result json)
  : io unit := fun w =>
  let url := py_or (getenv environ (py "JIRA_INSTANCE_URL"))
               (getenv environ (py "JIRA_URL")) in
  let username := getenv environ (py "JIRA_USERNAME") in
  let token := getenv environ (py "JIRA_API_TOKEN") in
  if negb (forallb set_and_not_empty [url; username; token]) then
    (Raise (RuntimeError (py "Missing required Jira environment variables")),
     w)
  else
    let w := with_client
               (Jira (default [] url) (default [] username)
                  (default [] token) true) w in
    print (py "Jira client initialized successfully") w.

(** *** Samples *)

(** A client library whose clients answer with the URL and the user they
    were built for. *)
Definition echo_Jira (url username password : pystr) (cloud : bool)
    (jql : pystr) (limit : Z) : result json :=
  Ok (JObj [(py "url", JStr url); (py "user", JStr username);
            (py "issues", JArr [])]).

Definition full_environ : gmap pystr pystr :=
  {[ py "JIRA_INSTANCE_URL" := py "https://a.example";
     py "JIRA_URL" := py "https://b.example";
     py "JIRA_USERNAME" := py "bot";
     py "JIRA_API_TOKEN" := py "secret" ]}.

(** The first URL is set, but empty. *)
Definition fallback_environ : gmap pystr pystr :=
  {[ py "JIRA_INSTANCE_URL" := [];
     py "JIRA_URL" := py "https://b.example";
     py "JIRA_USERNAME" := py "bot";
     py "JIRA_API_TOKEN" := py "secret" ]}.

(** No token. *)
Definition partial_environ : gmap pystr pystr :=
  {[ py "JIRA_URL" := py "https://b.example";
     py "JIRA_USERNAME" := py "bot" ]}.

(** A world before start-up, and clients for the edges of the query. *)
Definition world_cold : world :=
  World None old_files (fun _ => false) [].

Definition client_no_issues (jql : pystr) (limit : Z) : result json :=
  Ok (JObj [(py "total", JInt 0)]).

Definition world_no_issues : world :=
  World (Some client_no_issues) old_files (fun _ => false) [].

Definition client_null_issues (jql : pystr) (limit : Z) : result json :=
  Ok (JObj [(py "issues", JNull)]).

Definition world_null_issues : world :=
  World (Some client_null_issues) old_files (fun _ => false) [].

(** A batch whose second issue is malformed. *)
Definition mixed_batch : list json :=
  [sparse_issue; null_priority_issue; scenario_issue].

(** An issue whose assignee and project are there, but [null]. *)
Definition unassigned_issue : json :=
  JObj [(py "id", JStr (py "4"));
        (py "fields",
         JObj [(py "assignee", JNull); (py "project", JNull);
               (py "extra", JInt 7)])].

(** Issues in which a parent object is not present because its key holds
    [null]: the status, and the fields as a whole. *)
Definition null_status_issue : json :=
  JObj [(py "id", JStr (py "5"));
        (py "fields", JObj [(py "status", JNull)])].

Definition null_fields_issue : json :=
  JObj [(py "id", JStr (py "6")); (py "fields", JNull)].

(** A record one of whose texts holds a lone surrogate, as the JSON
    escape [\ud800] decodes to. *)
Definition surrogate_normalized : JiraIssue.t :=
  JiraIssue.mk (Some (py "7")) (Some (py "PRJ-7")) (Some [55296%N])
    (Some []) None None None None None.

(** A request whose query holds a lone surrogate. *)
Definition surrogate_request : JiraFetchRequest.t :=
  JiraFetchRequest.mk [55296%N] 50 true (py "jira_data.jsonl").

(** A description in the structured format that holds an address. *)
Definition structured_with_address : list (pystr * json) :=
  [(py "type", JStr (py "doc")); (py "text", JStr (py "bob@example.com"))].

(** ** The channel table of [slack_bot.py]: [list_channels]

    The answer of [conversations_list] is taken as the Slack API gives it:
    a list of channels, each with a name and an id, both texts.  What the
    function prints is given as the list of the lines, in order. *)

Module Slack.

Record channel : Type := Channel { name : pystr; id : pystr }.

(** [f"{s:<width}"] for a text: spaces are added on the right up to the
    width; a longer text is not cut. *)
Definition ljust (width : nat) (s : pystr) : pystr :=
  s ++ replicate (width - length s) (chr " ").

Definition header : pystr :=
  py "| Channel Name           | Channel ID              |".

Definition boundary : pystr :=
  py "|-----------------------|-------------------------|".

(** [f"| {ch['name']:<21} | {ch['id']:<23} |"] *)
Definition row (ch : channel) : pystr :=
  py "| " ++ ljust 21 (name ch) ++ py " | " ++ ljust 23 (id ch) ++ py " |".

(** The row of [side[i]] if [i < len(side)], else [" " * len(boundary)]. *)
Definition cell (side : list channel) (i : nat) : pystr :=
  match side !! i with
  | Some ch => row ch
  | None => replicate (length boundary) (chr " ")
  end.

Definition list_channels (channels : list channel) : list pystr :=
  let mid := (length channels + 1) / 2 in
  let left := take mid channels in
  let right := drop mid channels in
  [[]; header ++ py "  " ++ header; boundary ++ py "  " ++ boundary]
  ++ map (fun i => cell left i ++ py "  " ++ cell right i)
       (seq 0 (max (length left) (length right)))
  ++ [[]].

(** A channel whose name and id fit their columns. *)
Definition fits (ch : channel) : Prop :=
  length (name ch) <= 21 /\ length (id ch) <= 23.

(** *** Samples *)

Definition general : channel := Channel (py "general") (py "C024BE91L").
Definition random : channel := Channel (py "random") (py "C024BE92M").
Definition releases : channel :=
  Channel (py "team-platform-release-notes") (py "C024BE93N").

End Slack.

(** ** The pipeline *)

Section Pipeline.

(** What the pipeline takes from its libraries:
    - [uni_space], [uni_word]: the classes [\s] and [\w] beyond ASCII;
    - [html_strings s]: the text nodes, in document order, of
      [BeautifulSoup(s, "html.parser")], or [None] when the parser raises;
    - [lib_str e]: [str(e)] for an exception whose text a library words. *)
Variable uni_space : N -> bool.
Variable uni_word : N -> bool.
Variable html_strings : pystr -> option (list pystr).
Variable lib_str : exn -> pystr.

Definition is_space (c : N) : bool :=
  if (c <? 128)%N then ascii_space c else uni_space c.

Definition is_word (c : N) : bool :=
  if (c <? 128)%N then ascii_word c else uni_word c.

(** [<[^<]+?>] *)
Definition tag_re : Re.regex :=
  [Re.Chr (fun c => c =? chr "<")%N;
   Re.Plus false (fun c => negb (c =? chr "<")%N);
   Re.Chr (fun c => c =? chr ">")%N].

(** [\s+] *)
Definition space_re : Re.regex := [Re.Plus true is_space].

(** [[\w\.-]] *)
Definition addr_char (c : N) : bool :=
  is_word c || (c =? chr ".")%N || (c =? chr "-")%N.

(** [[\w\.-]+@[\w\.-]+\.\w+] *)
Definition email_re : Re.regex :=
  [Re.Plus true addr_char;
   Re.Chr (fun c => c =? chr "@")%N;
   Re.Plus true addr_char;
   Re.Chr (fun c => c =? chr ".")%N;
   Re.Plus true is_word].

Definition REDACTED : pystr := py "[REDACTED]".

(** [str.strip()]. *)
Fixpoint lstrip (s : pystr) : pystr :=
  match s with
  | c :: s' => if is_space c then lstrip s' else s
  | [] => []
  end.

Definition rstrip (s : pystr) : pystr := rev (lstrip (rev s)).

Definition strip (s : pystr) : pystr := rstrip (lstrip s).

(** [BeautifulSoup(text, "html.parser").get_text(separator=separator)]:
    the text nodes joined by the separator.  The constructor takes markup
    text; a value that is no text makes it raise. *)
Definition soup_get_text (text : json) (separator : pystr) : result pystr :=
  match text with
  | JStr s =>
      match html_strings s with
      | Some parts => Ok (join separator parts)
      | None => Raise ParserError
      end
  | _ => Raise (NotText text)
  end.

(** [re.sub(pattern, repl, text)]: a [TypeError] unless [text] is a [str]. *)
Definition re_sub (r : Re.regex) (repl : pystr) (text : json)
  : result pystr :=
  match text with
  | JStr s => Ok (Re.sub r repl s)
  | _ => Raise (NotText text)
  end.

(** The last step of [clean_text]: the e-mail addresses are redacted. *)
Definition redact_emails (text : pystr) : pystr :=
  Re.sub email_re REDACTED text.

Definition clean_text (text : json) : result pystr :=
  if negb (Json.truthy text) then Ok []
  else
    match text with
    | JObj _ => Ok (Json.dumps text)
    | _ =>
        text ← try_except (soup_get_text text (py " "))
                 (fun _ => re_sub tag_re [] text);
        let text := strip (Re.sub space_re (py " ") text) in
        let text := redact_emails text in
        Ok text
    end.

(** The body of the loop of [normalize_issues]; the arguments of the
    constructor are evaluated left to right. *)
Definition normalize_issue (issue : json) : result JiraIssue.t :=
  fields ← get issue (py "fields") (JObj []);
  id ← get issue (py "id") JNull;
  key ← get issue (py "key") JNull;
  summary ← get fields (py "summary") JNull;
  description ← get fields (py "description") JNull;
  description ← clean_text description;
  status ← get fields (py "status") (JObj []);
  status ← get status (py "name") JNull;
  priority ← get fields (py "priority") (JObj []);
  priority ← get priority (py "name") JNull;
  created ← get fields (py "created") JNull;
  assignee ← get fields (py "assignee") JNull;
  assignee ←
    (if Json.truthy assignee then
       assignee ← get fields (py "assignee") (JObj []);
       get assignee (py "displayName") JNull
     else Ok JNull);
  project ← get fields (py "project") JNull;
  project ←
    (if Json.truthy project then
       project ← get fields (py "project") (JObj []);
       get project (py "name") JNull
     else Ok JNull);
  JiraIssue.new id key summary (JStr description) status priority created
    assignee project.

(** [for issue in issues]: what iterating the value yields. *)
Definition iter (v : json) : result (list json) :=
  match v with
  | JArr l => Ok l
  | JStr s => Ok (map (fun c => JStr [c]) s)
  | JObj d => Ok (map (fun kv => JStr kv.1) d)
  | _ => Raise (NotIterable v)
  end.

Fixpoint normalize_loop (issues : list json) (normalized : list JiraIssue.t)
  : result (list JiraIssue.t) :=
  match issues with
  | [] => Ok normalized
  | issue :: rest =>
      n ← normalize_issue issue;
      normalize_loop rest (normalized ++ [n])
  end.

Definition normalize_issues (issues : json) : result (list JiraIssue.t) :=
  issues ← iter issues;
  normalize_loop issues [].

(** The loop of [save_to_jsonl].  When a record cannot be serialized the
    loop ends there; the [with] statement closes the file, which keeps
    the lines written so far. *)
Fixpoint write_items (data : list JiraIssue.t) (filename : pystr)
  : io unit :=
  match data with
  | [] => io_lift (Ok tt)
  | item :: rest =>
      io_bind (io_lift (JiraIssue.model_dump_json item)) (fun line =>
      io_bind (write filename (line ++ [LF])) (fun _ =>
      write_items rest filename))
  end.

Definition save_to_jsonl (data : list JiraIssue.t) (filename : pystr)
  : io unit :=
  io_bind (open_w filename) (fun _ => write_items data filename).

Definition fetch_jira_issues (jql : pystr) (limit : Z) : io json := fun w =>
  match jira_client w with
  | None => (Raise (RuntimeError (py "Jira client not initialized")), w)
  | Some client =>
      (results ← client jql limit; get results (py "issues") (JArr []), w)
  end.

(** [str(e)]. *)
Definition py_str (e : exn) : pystr :=
  match e with
  | RuntimeError msg => msg
  | Fault descr => descr
  | AttributeError v attr =>
      py "'" ++ Json.type_name v ++ py "' object has no attribute '"
      ++ attr ++ py "'"
  | NotIterable v => py "'" ++ Json.type_name v ++ py "' object is not iterable"
  | _ => lib_str e
  end.

(** The [print] stands before the [try]: what it raises is not caught. *)
Definition fetch_jira_tokens (request : JiraFetchRequest.t)
  : io JiraFetchResponse.t :=
  io_bind (print (JiraFetchRequest.jql_query request)) (fun _ =>
  io_try
    (io_bind (fetch_jira_issues (JiraFetchRequest.jql_query request)
                (JiraFetchRequest.limit request)) (fun raw_issues =>
     io_bind (io_lift (normalize_issues raw_issues)) (fun normalized =>
     io_bind (if JiraFetchRequest.save_to_file request
              then save_to_jsonl normalized
                     (JiraFetchRequest.filename request)
              else io_lift (Ok tt)) (fun _ =>
     io_lift (Ok (JiraFetchResponse.mk (Z.of_nat (length normalized))
                    normalized true))))))
    (fun e => io_lift (Raise (HTTPException 500 (py_str e))))).

(** An e-mail address, in the words of the pattern: a local part and a
    domain, each one or more word characters, dots or hyphens, with an
    [@] between them, and after the domain a dot and a top-level name of
    one or more word characters. *)
Definition address (m : pystr) : Prop :=
  exists local domain tld,
    m = local ++ chr "@" :: domain ++ chr "." :: tld /\
    local <> [] /\ domain <> [] /\ tld <> [] /\
    Forall (fun c => is_word c = true \/ c = chr "." \/ c = chr "-") local /\
    Forall (fun c => is_word c = true \/ c = chr "." \/ c = chr "-") domain /\
    Forall (fun c => is_word c = true) tld.


(** What redaction is, said without the scan.  Reading from the left: a
    character at which no address starts is kept; where addresses start,
    the longest of them is replaced by the token, and the reading goes on
    after it. *)
Inductive redacted : pystr -> pystr -> Prop :=
| redacted_nil : redacted [] []
| redacted_keep x s out :
    (forall m t, x :: s = m ++ t -> ~ address m) ->
    redacted s out ->
    redacted (x :: s) (x :: out)
| redacted_hit m s out :
    address m ->
    (forall m' t, m ++ s = m' ++ t -> address m' -> length m' <= length m) ->
    redacted s out ->
    redacted (m ++ s) (REDACTED ++ out).

(** The inputs the sanitizer is written for: an absent or otherwise empty
    value, a text, a mapping. *)
Definition sanitizable (v : json) : bool :=
  match v with
  | JStr _ | JObj _ => true
  | _ => negb (Json.truthy v)
  end.

(** What [clean_text] does to a text once its markup is gone. *)
Definition tidy (text : pystr) : pystr :=
  redact_emails (strip (Re.sub space_re (py " ") text)).

(** The stage of [fetch_jira_tokens] at which a run fails with [e]: the
    query, the normalization of what the query returned, or the writing of
    what was normalized.  The stages run in the world in which the query
    has been printed: a stage is reached only when the [print] before the
    [try] has returned. *)
Definition printed (request : JiraFetchRequest.t) (w : world) : Prop :=
  (print (JiraFetchRequest.jql_query request) w).1 = Ok tt.

Definition queried (request : JiraFetchRequest.t) (w : world) : result json :=
  (io_bind (print (JiraFetchRequest.jql_query request)) (fun _ =>
     fetch_jira_issues (JiraFetchRequest.jql_query request)
       (JiraFetchRequest.limit request)) w).1.

Definition query_fault request w (e : exn) : Prop :=
  printed request w /\ queried request w = Raise e.

Definition normalization_fault request w (e : exn) : Prop :=
  exists raw_issues,
    queried request w = Ok raw_issues /\
    normalize_issues raw_issues = Raise e.

Definition persistence_fault request w (e : exn) : Prop :=
  exists raw_issues normalized,
    queried request w = Ok raw_issues /\
    normalize_issues raw_issues = Ok normalized /\
    JiraFetchRequest.save_to_file request = true /\
    (save_to_jsonl normalized (JiraFetchRequest.filename request)
       (print (JiraFetchRequest.jql_query request) w).2).1 = Raise e.

(** [dflt default o]: the value found by a lookup, or the default. *)
Local Abbreviation dflt := (from_option (fun x : json => x)).

(** One step of a sequence of statements: the first bind is run. *)
Ltac bind_step :=
  unfold mbind at 1; unfold result_bind at 1; cbv beta iota.

Ltac bind_step_in H :=
  unfold mbind at 1 in H; unfold result_bind at 1 in H; cbv beta iota in H.

(** ** Notions used by the further properties *)

(** Every white-space character of [s] is a plain space that stands alone
    between two characters that are no white space. *)
Definition single_spaced (s : pystr) : Prop :=
  forall u c v, s = u ++ c :: v -> is_space c = true ->
    c = chr " " /\
    (exists a u', u = u' ++ [a] /\ is_space a = false) /\
    (exists d v', v = d :: v' /\ is_space d = false).

(** A value that cannot be iterated: [None], a [bool] or a number. *)
Definition not_iterable (v : json) : bool :=
  match v with
  | JNull | JBool _ | JInt _ | JFloat _ _ => true
  | _ => false
  end.

Definition is_mapping (v : json) : bool :=
  match v with
  | JObj _ => true
  | _ => false
  end.

(** A character [json.dumps] writes as it is. *)
Definition plain_char (c : N) : bool :=
  ((32 <=? c) && (c <=? 126) && negb (c =? QUOTE) && negb (c =? BACKSLASH))%N.

(** The first character of [s], if there is one, is no white space; so
    for the last one. *)
Definition starts_black (s : pystr) : bool :=
  match s with
  | c :: _ => negb (is_space c)
  | [] => true
  end.

Definition ends_black (s : pystr) : bool := starts_black (rev s).

(** Every white-space character of [s] is a plain space that no white
    space follows. *)
Fixpoint spaced (s : pystr) : bool :=
  match s with
  | [] => true
  | c :: s' =>
      (if is_space c then (c =? chr " ")%N && starts_black s' else true)
      && spaced s'
  end.

(** [longest r]: where the matcher finds a match of [r], no longer text
    of the language of [r] starts. *)
Definition longest (r : Re.regex) : Prop :=
  forall s k, Re.match_at r s = Some k ->
  forall m t, s = m ++ t -> Re.matches r m -> length m <= k.

(** * Properties *)

(** ** The matcher and [re.sub] *)

Lemma match_at_plus_nil g c r : Re.match_at (Re.Plus g c :: r) [] = None.
Proof. reflexivity. Qed.

Lemma match_at_plus_cons g c r x s :
  Re.match_at (Re.Plus g c :: r) (x :: s) =
  if c x then
    if g then
      match Re.match_at (Re.Plus g c :: r) s with
      | Some k => Some (S k)
      | None => S <$> Re.match_at r s
      end
    else
      match Re.match_at r s with
      | Some k => Some (S k)
      | None => S <$> Re.match_at (Re.Plus g c :: r) s
      end
  else None.
Proof. reflexivity. Qed.

Lemma matches_plus_cons g c r x m :
  c x = true ->
  Re.matches r m \/ Re.matches (Re.Plus g c :: r) m ->
  Re.matches (Re.Plus g c :: r) (x :: m).
Proof.
  intros Hx [Hm | (run & m' & -> & Hne & Hall & Hm)].
  - exists [x], m. simpl. rewrite Hx. done.
  - exists (x :: run), m'. simpl. rewrite Hx, Hall. done.
Qed.

Lemma match_at_sound r : forall s k,
  Re.match_at r s = Some k -> k <= length s /\ Re.matches r (take k s).
Proof.
  induction r as [|[c | g c] r IH]; intros s k.
  - simpl. intros [= <-]. split; [lia | done].
  - destruct s as [|x s]; simpl; [done|].
    destruct (c x) eqn:Hx; [|done].
    destruct (Re.match_at r s) as [k'|] eqn:Hk; simpl; [|done].
    intros [= <-]. destruct (IH _ _ Hk) as [Hle Hm].
    split; [simpl; lia|]. exists x, (take k' s). done.
  - revert k. induction s as [|x s IHs]; intros k; [done|].
    rewrite match_at_plus_cons.
    destruct (c x) eqn:Hx; [|done].
    assert (Hstep : forall k',
      Re.match_at r s = Some k' \/ Re.match_at (Re.Plus g c :: r) s = Some k' ->
      S k' <= length (x :: s) /\
      Re.matches (Re.Plus g c :: r) (take (S k') (x :: s))).
    { intros k' [Hk | Hk].
      - destruct (IH _ _ Hk). split; [simpl; lia|].
        apply matches_plus_cons; auto.
      - destruct (IHs _ Hk). split; [simpl; lia|].
        apply matches_plus_cons; auto. }
    destruct g.
    + destruct (Re.match_at (Re.Plus true c :: r) s) as [k'|] eqn:Hk.
      * intros [= <-]. apply Hstep; auto.
      * destruct (Re.match_at r s) as [k'|] eqn:Hk'; simpl; [|done].
        intros [= <-]. apply Hstep; auto.
    + destruct (Re.match_at r s) as [k'|] eqn:Hk'.
      * intros [= <-]. apply Hstep; auto.
      * destruct (Re.match_at (Re.Plus false c :: r) s) as [k'|] eqn:Hk;
          simpl; [|done].
        intros [= <-]. apply Hstep; auto.
Qed.

Lemma match_at_complete r : forall m t,
  Re.matches r m -> is_Some (Re.match_at r (m ++ t)).
Proof.
  induction r as [|[c | g c] r IH]; intros m t.
  - simpl. intros ->. eauto.
  - intros (x & m' & -> & Hx & Hm). simpl. rewrite Hx.
    destruct (IH _ t Hm) as [k ->]. simpl. eauto.
  - intros (run & m' & -> & Hne & Hall & Hm).
    induction run as [|x run IHrun]; [done|].
    simpl in Hall. apply andb_true_iff in Hall as [Hx Hall].
    rewrite <- app_assoc, <- app_comm_cons, match_at_plus_cons, Hx.
    assert (Htail : is_Some (Re.match_at r (run ++ m' ++ t)) \/
                    is_Some (Re.match_at (Re.Plus g c :: r) (run ++ m' ++ t))).
    { destruct run as [|y run].
      - left. exact (IH m' t Hm).
      - right. rewrite app_assoc. apply IHrun; done. }
    destruct g.
    + destruct (Re.match_at (Re.Plus true c :: r) (run ++ m' ++ t)); [eauto|].
      destruct Htail as [[k ->] | [k Hk]]; [simpl; eauto | done].
    + destruct (Re.match_at r (run ++ m' ++ t)); [eauto|].
      destruct Htail as [[k Hk] | [k ->]]; [done | simpl; eauto].
Qed.

Lemma sub_from_drop r repl s : forall k,
  Re.sub_from r repl k s = Re.sub r repl (drop k s).
Proof.
  induction s as [|x s IH]; intros [|k]; try reflexivity.
  simpl. apply IH.
Qed.

Lemma sub_nil r repl : Re.sub r repl [] = [].
Proof. reflexivity. Qed.

Lemma sub_cons r repl x s :
  Re.sub r repl (x :: s) =
  match Re.match_at r (x :: s) with
  | Some (S k) => repl ++ Re.sub r repl (drop k s)
  | _ => x :: Re.sub r repl s
  end.
Proof.
  unfold Re.sub at 1. cbn [Re.sub_from].
  destruct (Re.match_at r (x :: s)) as [[|k]|]; try reflexivity.
  by rewrite sub_from_drop.
Qed.

(** What [sub] leaves in front of its first replacement is the text as it was. *)
Lemma sub_shape r b repl s :
  Re.sub r (b :: repl) s = s \/
  exists u t w, s = u ++ t /\ Re.sub r (b :: repl) s = u ++ b :: w.
Proof.
  induction s as [|x s IH]; [by left|].
  rewrite sub_cons.
  destruct (Re.match_at r (x :: s)) as [[|k]|].
  - destruct IH as [-> | (u & t & w & Hs & ->)]; [by left|].
    right. exists (x :: u), t, w. by rewrite Hs.
  - right. by exists [], (x :: s), (repl ++ Re.sub r (b :: repl) (drop k s)).
  - destruct IH as [-> | (u & t & w & Hs & ->)]; [by left|].
    right. exists (x :: u), t, w. by rewrite Hs.
Qed.

(** ** The greedy repetition takes the longest run that lets the rest of
    the pattern match *)

Lemma forallb_take_lookup (c : N -> bool) n (s : pystr) :
  forallb c (take n s) = true ->
  forall i y, i < n -> s !! i = Some y -> c y = true.
Proof.
  rewrite forallb_forall. intros Hall i y Hi Hy. apply Hall.
  apply list_elem_of_In, list_elem_of_lookup. exists i.
  by rewrite lookup_take_lt.
Qed.

Lemma match_at_chr_head c r s k :
  Re.match_at (Re.Chr c :: r) s = Some k ->
  exists y s' j, s = y :: s' /\ c y = true /\
    Re.match_at r s' = Some j /\ k = S j.
Proof.
  destruct s as [|y s']; simpl; [done|].
  destruct (c y) eqn:Hy; [|done].
  destruct (Re.match_at r s') as [j|] eqn:Hj; simpl; [|done].
  intros [= <-]. by exists y, s', j.
Qed.

Lemma match_at_greedy_some c r : forall s n j,
  0 < n -> n <= length s ->
  forallb c (take n s) = true ->
  Re.match_at r (drop n s) = Some j ->
  is_Some (Re.match_at (Re.Plus true c :: r) s).
Proof.
  induction s as [|x s IH]; intros n j Hn Hle Hrun Hrest; [simpl in Hle; lia|].
  destruct n as [|n]; [lia|]. cbn [take forallb drop] in Hrun, Hrest.
  apply andb_true_iff in Hrun as [Hx Hrun].
  rewrite match_at_plus_cons, Hx.
  destruct n as [|n].
  - rewrite drop_0 in Hrest. rewrite Hrest.
    destruct (Re.match_at (Re.Plus true c :: r) s); simpl; eauto.
  - destruct (IH (S n) j) as [k Hk]; [lia|simpl in Hle; lia|done|done|].
    rewrite Hk. eauto.
Qed.

Lemma match_at_greedy c r : forall s k,
  Re.match_at (Re.Plus true c :: r) s = Some k ->
  exists n j,
    k = n + j /\ 0 < n <= length s /\
    forallb c (take n s) = true /\
    Re.match_at r (drop n s) = Some j /\
    forall n', n < n' -> n' <= length s ->
      forallb c (take n' s) = true ->
      Re.match_at r (drop n' s) = None.
Proof.
  induction s as [|x s IH]; intros k; [done|].
  rewrite match_at_plus_cons.
  destruct (c x) eqn:Hx; [|done].
  destruct (Re.match_at (Re.Plus true c :: r) s) as [k'|] eqn:Hin.
  - intros [= <-].
    destruct (IH k' eq_refl) as (n & j & -> & Hn & Hrun & Hrest & Hmax).
    exists (S n), j. split; [done|]. split; [simpl; lia|].
    split; [by cbn [take forallb]; rewrite Hx, Hrun|]. split; [done|].
    intros [|n'] Hlt Hle Hrun'; [lia|].
    cbn [take forallb drop length] in *.
    apply andb_true_iff in Hrun' as [_ Hrun'].
    apply Hmax; [lia|lia|done].
  - destruct (Re.match_at r s) as [j|] eqn:Hrest; simpl; [|done].
    intros [= <-]. exists 1, j. split; [done|]. split; [simpl; lia|].
    split; [by cbn [take forallb]; rewrite Hx|]. split; [done|].
    intros [|n'] Hlt Hle Hrun'; [lia|].
    cbn [take forallb drop length] in *.
    apply andb_true_iff in Hrun' as [_ Hrun'].
    destruct (Re.match_at r (drop n' s)) as [j'|] eqn:Hrest'; [|done].
    destruct (match_at_greedy_some c r s n' j') as [k Hk];
      [lia|lia|done|done|]. congruence.
Qed.

(** ** Redaction *)

Lemma is_word_not_bracket c : is_word c = true -> c <> chr "[".
Proof. intros H ->. discriminate H. Qed.

Lemma addr_char_not_bracket c : addr_char c = true -> c <> chr "[".
Proof. intros H ->. discriminate H. Qed.

Lemma forallb_not_bracket (cls : N -> bool) run :
  (forall c, cls c = true -> c <> chr "[") ->
  forallb cls run = true -> chr "[" ∉ run.
Proof.
  intros Hcls Hall Hin.
  rewrite forallb_forall in Hall.
  apply list_elem_of_In, Hall in Hin. by apply Hcls in Hin.
Qed.

(** An address holds no opening bracket, and is not empty. *)
Lemma email_no_bracket m : Re.matches email_re m -> chr "[" ∉ m.
Proof.
  intros (r1 & ? & -> & _ & H1 & x & ? & -> & Hx
          & r2 & ? & -> & _ & H2 & y & ? & -> & Hy
          & r3 & ? & -> & _ & H3 & ->).
  apply N.eqb_eq in Hx as ->. apply N.eqb_eq in Hy as ->.
  pose proof (forallb_not_bracket _ _ addr_char_not_bracket H1).
  pose proof (forallb_not_bracket _ _ addr_char_not_bracket H2).
  pose proof (forallb_not_bracket _ _ is_word_not_bracket H3).
  repeat first [rewrite elem_of_app | rewrite elem_of_cons].
  rewrite elem_of_nil. intuition discriminate.
Qed.

Lemma email_not_empty : ~ Re.matches email_re [].
Proof.
  intros (r1 & ? & Heq & Hne & _). by destruct r1.
Qed.

Lemma match_at_email_pos s k :
  Re.match_at email_re s = Some k -> exists k', k = S k'.
Proof.
  intros H. destruct k as [|k']; [|eauto].
  apply match_at_sound in H as [_ H]. by apply email_not_empty in H.
Qed.

(** No address starts inside the token, whatever follows it. *)
Lemma token_closed p out :
  p < length REDACTED ->
  Re.match_at email_re (drop p (REDACTED ++ out)) = None.
Proof.
  intros Hp. do 10 (destruct p as [|p]; [reflexivity|]).
  simpl in Hp. lia.
Qed.

Lemma prefix_before x (u w m : pystr) :
  m `prefix_of` u ++ x :: w -> x ∉ m -> m `prefix_of` u.
Proof.
  revert m. induction u as [|y u IH]; intros m Hpre Hx.
  - destruct m as [|z m]; [apply prefix_nil|].
    apply prefix_cons_inv_1 in Hpre as ->. set_solver.
  - destruct m as [|z m]; [apply prefix_nil|].
    simpl in Hpre. pose proof (prefix_cons_inv_1 _ _ _ _ Hpre) as ->.
    apply prefix_cons, IH; [by eapply prefix_cons_inv_2|set_solver].
Qed.

(** After redaction no address starts anywhere. *)
Lemma redact_no_match s : forall p,
  Re.match_at email_re (drop p (redact_emails s)) = None.
Proof.
  remember (length s) as n eqn:Hn. revert s Hn.
  induction n as [n IH] using lt_wf_ind. intros s Hn p.
  destruct s as [|x s]; [by destruct p|].
  unfold redact_emails in *. rewrite sub_cons.
  destruct (Re.match_at email_re (x :: s)) as [k|] eqn:Hk.
  - destruct (match_at_email_pos _ _ Hk) as [k' ->].
    destruct (decide (p < length REDACTED)) as [Hp|Hp].
    + by apply token_closed.
    + rewrite drop_app_ge by lia.
      eapply IH; [|reflexivity]. rewrite length_drop. simpl in Hn. lia.
  - destruct p as [|p]; [|simpl; eapply IH; [|reflexivity]; simpl in Hn; lia].
    simpl.
    destruct (Re.match_at email_re (x :: Re.sub email_re REDACTED s))
      as [k|] eqn:Hout; [exfalso|done].
    apply match_at_sound in Hout as [_ Hm].
    set (m := take k (x :: Re.sub email_re REDACTED s)) in *.
    assert (Hpre : m `prefix_of` x :: s).
    { assert (Hm' : m `prefix_of` x :: Re.sub email_re REDACTED s)
        by apply prefix_take.
      assert (Hshape : Re.sub email_re REDACTED s = s \/
                exists u t w, s = u ++ t /\
                  Re.sub email_re REDACTED s = u ++ chr "[" :: w)
        by exact (sub_shape email_re (chr "[") (py "REDACTED]") s).
      destruct Hshape as [Hs | (u & t & w & Hs & Hout)].
      - by rewrite Hs in Hm'.
      - rewrite Hout, app_comm_cons in Hm'.
        apply prefix_before in Hm'; [|by apply email_no_bracket].
        rewrite Hs, app_comm_cons. by apply prefix_app_r. }
    destruct Hpre as [t Ht].
    destruct (match_at_complete email_re m t Hm) as [k' Hk'].
    rewrite <- Ht in Hk'. congruence.
Qed.


(** The pattern says what an address is. *)
Lemma addr_char_spec c :
  addr_char c = true <-> is_word c = true \/ c = chr "." \/ c = chr "-".
Proof. unfold addr_char. rewrite !orb_true_iff, !N.eqb_eq. tauto. Qed.

Lemma forallb_addr run :
  forallb addr_char run = true <->
  Forall (fun c => is_word c = true \/ c = chr "." \/ c = chr "-") run.
Proof.
  rewrite forallb_forall, Forall_forall.
  split; intros H c Hc; apply addr_char_spec, H; by apply list_elem_of_In.
Qed.

Lemma forallb_word run :
  forallb is_word run = true <-> Forall (fun c => is_word c = true) run.
Proof.
  rewrite forallb_forall, Forall_forall.
  split; intros H c Hc; apply H; by apply list_elem_of_In.
Qed.

Lemma matches_address m : Re.matches email_re m <-> address m.
Proof.
  split.
  - intros (r1 & ? & -> & Hne1 & H1 & x & ? & -> & Hx
            & r2 & ? & -> & Hne2 & H2 & y & ? & -> & Hy
            & r3 & ? & -> & Hne3 & H3 & ->).
    apply N.eqb_eq in Hx as ->. apply N.eqb_eq in Hy as ->.
    exists r1, r2, r3. rewrite app_nil_r.
    split; [done|]. split; [done|]. split; [done|]. split; [done|].
    split; [by apply forallb_addr|]. split; [by apply forallb_addr|].
    by apply forallb_word.
  - intros (l & d & t & -> & Hl & Hd & Ht & Fl & Fd & Ft).
    exists l, (chr "@" :: d ++ chr "." :: t).
    split; [done|]. split; [done|]. split; [by apply forallb_addr|].
    exists (chr "@"), (d ++ chr "." :: t).
    split; [done|]. split; [apply N.eqb_refl|].
    exists d, (chr "." :: t).
    split; [done|]. split; [done|]. split; [by apply forallb_addr|].
    exists (chr "."), t.
    split; [done|]. split; [apply N.eqb_refl|].
    exists t, []. rewrite app_nil_r.
    split; [done|]. split; [done|]. split; [by apply forallb_word|done].
Qed.

Lemma address_not_nil : ~ address [].
Proof. intros Hm%matches_address. by apply email_not_empty in Hm. Qed.

(** Where the matcher finds an address, it finds the longest one. *)
Lemma longest_chr c r : longest r -> longest (Re.Chr c :: r).
Proof.
  intros Hr s k Hk m t -> (x & m' & -> & Hx & Hm).
  apply match_at_chr_head in Hk as (y & s' & j & Heq & _ & Hj & ->).
  simpl in Heq. injection Heq as _ <-.
  pose proof (Hr _ _ Hj m' t eq_refl Hm). simpl. lia.
Qed.

Lemma longest_plus_last c : longest [Re.Plus true c].
Proof.
  intros s k Hk m t -> (run & ? & -> & Hne & Hrun & ->).
  rewrite app_nil_r in *.
  apply match_at_greedy in Hk as (n & j & -> & Hn & _ & Hj & Hmax).
  destruct (decide (length run <= n)) as [|Hgt]; [lia|].
  specialize (Hmax (length run)).
  rewrite take_app_length in Hmax. simpl in Hmax.
  rewrite length_app in Hmax. discriminate Hmax; [lia|lia|done].
Qed.

Lemma longest_plus_sep c d r :
  (forall x, d x = true -> c x = false) ->
  longest (Re.Chr d :: r) ->
  longest (Re.Plus true c :: Re.Chr d :: r).
Proof.
  intros Hdis Hr s k Hk m t -> (run & m2 & -> & Hne & Hrun & Hm2).
  apply match_at_greedy in Hk as (n & j & -> & Hn & Hn_run & Hj & _).
  pose proof Hm2 as (x & m2' & -> & Hx & _).
  pose proof (match_at_chr_head _ _ _ _ Hj) as (y & s' & j' & Hdrop & Hy & _).
  assert (Hat : ((run ++ x :: m2') ++ t) !! length run = Some x).
  { rewrite <- app_assoc, lookup_app_r by lia. by rewrite Nat.sub_diag. }
  assert (Hat' : ((run ++ x :: m2') ++ t) !! n = Some y).
  { pose proof (lookup_drop ((run ++ x :: m2') ++ t) n 0) as H.
    by rewrite Hdrop, Nat.add_0_r in H. }
  assert (Heq : length run = n).
  { destruct (lt_eq_lt_dec (length run) n) as [[Hlt|Heq]|Hgt]; [|done|].
    - pose proof (forallb_take_lookup c n _ Hn_run _ _ Hlt Hat) as Hc.
      by rewrite (Hdis x Hx) in Hc.
    - assert (Hrun' : forallb c (take (length run)
                                   ((run ++ x :: m2') ++ t)) = true)
        by (by rewrite <- app_assoc, take_app_length).
      pose proof (forallb_take_lookup c _ _ Hrun' _ _ Hgt Hat') as Hc.
      by rewrite (Hdis y Hy) in Hc. }
  subst n. rewrite <- app_assoc, drop_app_length in Hj.
  pose proof (Hr _ _ Hj (x :: m2') t eq_refl Hm2). rewrite length_app. lia.
Qed.

Lemma longest_plus_then c d w :
  (forall x, d x = true -> w x = false) ->
  longest [Re.Plus true c; Re.Chr d; Re.Plus true w].
Proof.
  intros Hdis s k Hk m t -> (run & m2 & -> & Hne & Hrun & Hm2).
  pose proof Hm2 as (x & ? & -> & Hx & (W & ? & -> & HWne & HW & ->)).
  rewrite app_nil_r in *.
  apply match_at_greedy in Hk as (n & j & -> & Hn & Hn_run & Hj & Hmax).
  assert (Hsplit : (run ++ x :: W) ++ t = run ++ (x :: W) ++ t)
    by (by rewrite <- app_assoc).
  assert (Hle : length run <= n).
  { destruct (decide (length run <= n)) as [|Hgt]; [done|]. exfalso.
    destruct (match_at_complete [Re.Chr d; Re.Plus true w] (x :: W) t Hm2)
      as [k' Hk'].
    specialize (Hmax (length run)).
    rewrite Hsplit, take_app_length, drop_app_length in Hmax.
    rewrite Hmax in Hk'; [done|lia| |done].
    rewrite length_app. lia. }
  destruct (decide (length run = n)) as [<-|Hne'].
  - rewrite Hsplit, drop_app_length in Hj.
    pose proof (longest_chr d _ (longest_plus_last w) _ _ Hj
                  (x :: W) t eq_refl Hm2).
    rewrite length_app. lia.
  - pose proof (match_at_chr_head _ _ _ _ Hj)
      as (y & s' & j' & Hdrop & Hy & _ & ->).
    assert (Hat' : ((run ++ x :: W) ++ t) !! n = Some y).
    { pose proof (lookup_drop ((run ++ x :: W) ++ t) n 0) as H.
      by rewrite Hdrop, Nat.add_0_r in H. }
    destruct (decide (n <= length run + length W)) as [Hin|Hout].
    + exfalso. rewrite Hsplit, lookup_app_r in Hat' by lia.
      destruct (n - length run) as [|i] eqn:Hi; [lia|].
      cbn [app] in Hat'. rewrite lookup_cons in Hat'.
      rewrite lookup_app_l in Hat' by lia.
      rewrite forallb_forall in HW.
      assert (Hw : w y = true).
      { apply HW, list_elem_of_In, list_elem_of_lookup. eauto. }
      by rewrite (Hdis y Hy) in Hw.
    + rewrite length_app. cbn [length]. lia.
Qed.

Lemma email_longest : longest email_re.
Proof.
  apply longest_plus_sep.
  - intros x ->%N.eqb_eq. reflexivity.
  - apply longest_chr, longest_plus_then.
    intros x ->%N.eqb_eq. reflexivity.
Qed.

Lemma redact_redacted s : redacted s (redact_emails s).
Proof.
  remember (length s) as n eqn:Hn. revert s Hn.
  induction n as [n IH] using lt_wf_ind. intros s Hn.
  destruct s as [|x s]; [constructor|].
  unfold redact_emails in *. rewrite sub_cons.
  destruct (Re.match_at email_re (x :: s)) as [k|] eqn:Hk.
  - destruct (match_at_email_pos _ _ Hk) as [k' ->].
    pose proof (match_at_sound _ _ _ Hk) as [Hle Hm].
    rewrite <- (take_drop (S k') (x :: s)) at 1.
    apply redacted_hit; [by apply matches_address| |].
    + intros m' t' Heq Hm'%matches_address. rewrite take_drop in Heq.
      rewrite length_take_le by done.
      exact (email_longest _ _ Hk m' t' Heq Hm').
    + eapply IH; [|reflexivity]. rewrite length_drop. simpl in Hn, Hle. lia.
  - apply redacted_keep.
    + intros m t Heq Hm%matches_address.
      destruct (match_at_complete email_re m t Hm) as [k' Hk'].
      rewrite <- Heq in Hk'. congruence.
    + eapply IH; [|reflexivity]. simpl in Hn. lia.
Qed.


(** A text in which no address starts is returned as it is. *)
Lemma redact_id s :
  (forall p, Re.match_at email_re (drop p s) = None) -> redact_emails s = s.
Proof.
  induction s as [|x s IH]; intros Hnone; [done|].
  unfold redact_emails in *. rewrite sub_cons.
  pose proof (Hnone 0) as H0. rewrite drop_0 in H0. rewrite H0.
  f_equal. apply IH. intros p. apply (Hnone (S p)).
Qed.

(** ** The sanitizer *)

Lemma clean_text_falsy v : Json.truthy v = false -> clean_text v = Ok [].
Proof. intros H. unfold clean_text. by rewrite H. Qed.

Lemma clean_text_dict d :
  d <> [] -> clean_text (JObj d) = Ok (Json.dumps (JObj d)).
Proof. by destruct d. Qed.

(** On a text: the text nodes joined by a space when the parser accepts
    it, the text without its [<...>] spans when it does not; then tidied. *)
Lemma clean_text_str s :
  s <> [] ->
  clean_text (JStr s) =
  Ok (tidy (match html_strings s with
            | Some parts => join (py " ") parts
            | None => Re.sub tag_re [] s
            end)).
Proof.
  intros Hs. destruct s as [|c s]; [done|].
  unfold clean_text, soup_get_text, re_sub. simpl Json.truthy. cbv iota beta.
  simpl negb. cbv iota.
  by destruct (html_strings (c :: s)).
Qed.

Lemma clean_text_other v :
  sanitizable v = false -> clean_text v = Raise (NotText v).
Proof.
  destruct v as [| b | z | nz r | s | l | d]; simpl; try done.
  - by intros ->%negb_false_iff.
  - unfold clean_text. simpl. by intros ->.
  - unfold clean_text. simpl. by intros ->.
  - unfold clean_text. simpl. by destruct l.
Qed.

Lemma clean_text_ok v :
  sanitizable v = true -> exists s, clean_text v = Ok s.
Proof.
  intros Hv.
  destruct (Json.truthy v) eqn:Ht; [|rewrite clean_text_falsy; eauto].
  destruct v as [| b | z | nz r | s | l | d]; simpl in Hv, Ht;
    try congruence; try (rewrite Ht in Hv; discriminate Hv).
  - rewrite clean_text_str; [eauto|]. by destruct s.
  - rewrite clean_text_dict; [eauto|]. by destruct d.
Qed.

Lemma clean_text_ok_inv v s : clean_text v = Ok s -> sanitizable v = true.
Proof.
  intros H. destruct (sanitizable v) eqn:Hv; [done|].
  rewrite clean_text_other in H; done.
Qed.


(** ** The normalizer *)

Lemma bind_ok_inv {A B} (m : result A) (k : A -> result B) b :
  (x ← m; k x) = Ok b -> exists a, m = Ok a /\ k a = Ok b.
Proof. destruct m as [a|e]; [eauto|discriminate]. Qed.

Lemma get_obj d k default :
  get (JObj d) k default = Ok (dflt default (Json.lookup k d)).
Proof. reflexivity. Qed.

Lemma new_valid id key summary description status priority created
    assignee project :
  JiraIssue.valid id = true -> JiraIssue.valid key = true ->
  JiraIssue.valid summary = true -> JiraIssue.valid description = true ->
  JiraIssue.valid status = true -> JiraIssue.valid priority = true ->
  JiraIssue.valid created = true -> JiraIssue.valid assignee = true ->
  JiraIssue.valid project = true ->
  JiraIssue.new id key summary description status priority created
    assignee project =
  Ok (JiraIssue.mk
        (JiraIssue.optional_str id) (JiraIssue.optional_str key)
        (JiraIssue.optional_str summary)
        (JiraIssue.optional_str description)
        (JiraIssue.optional_str status) (JiraIssue.optional_str priority)
        (JiraIssue.optional_str created) (JiraIssue.optional_str assignee)
        (JiraIssue.optional_str project)).
Proof.
  intros H1 H2 H3 H4 H5 H6 H7 H8 H9. unfold JiraIssue.new.
  cbn [List.filter snd]. by rewrite H1, H2, H3, H4, H5, H6, H7, H8, H9.
Qed.

Lemma leaf_valid o :
  RawIssue.text_or_absent o = true -> JiraIssue.valid (dflt JNull o) = true.
Proof. by destruct o as [[]|]. Qed.

Lemma leaf_path k d :
  JiraIssue.optional_str (dflt JNull (Json.lookup k d)) =
  RawIssue.at_path [k] (JObj d).
Proof. simpl. by destruct (Json.lookup k d). Qed.

Lemma at_path_cons k rest d :
  RawIssue.at_path (k :: rest) (JObj d) =
  match Json.lookup k d with
  | Some v => RawIssue.at_path rest v
  | None => None
  end.
Proof. reflexivity. Qed.

(** [fields.get(k, {}).get(name)] on a parent that is missing or a mapping. *)
Lemma named_step name k f :
  RawIssue.named name (Json.lookup k f) = true ->
  exists v,
    get (dflt (JObj []) (Json.lookup k f)) name JNull = Ok v /\
    JiraIssue.valid v = true /\
    JiraIssue.optional_str v = RawIssue.at_path [k; name] (JObj f).
Proof.
  rewrite at_path_cons.
  destruct (Json.lookup k f) as [[| | | | | |d]|]; simpl; try done.
  - intros H. eexists. split; [reflexivity|].
    split; [by apply leaf_valid|]. by destruct (Json.lookup name d).
  - intros _. by exists JNull.
Qed.

(** [fields.get(k, {}).get(name) if fields.get(k) else None]. *)
Lemma guarded_step name k f :
  RawIssue.named_or_null name (Json.lookup k f) = true ->
  exists v,
    (if Json.truthy (dflt JNull (Json.lookup k f))
     then parent ← get (JObj f) k (JObj []); get parent name JNull
     else Ok JNull) = Ok v /\
    JiraIssue.valid v = true /\
    JiraIssue.optional_str v = RawIssue.at_path [k; name] (JObj f).
Proof.
  rewrite at_path_cons, get_obj. unfold RawIssue.named_or_null.
  destruct (Json.lookup k f) as [v|]; [|by exists JNull].
  cbn [from_option]. destruct (Json.truthy v) eqn:Ht.
  - cbn [negb orb]. destruct v as [| | | | | |d]; try done.
    simpl. intros H. eexists. split; [reflexivity|].
    split; [by apply leaf_valid|]. by destruct (Json.lookup name d).
  - intros _. exists JNull. split; [done|]. split; [done|].
    destruct v as [| | | | [] | [] |[]]; simpl in *; done.
Qed.

Lemma description_step f :
  RawIssue.description_ok (Json.lookup (py "description") f) = true ->
  sanitizable (dflt JNull (Json.lookup (py "description") f)) = true.
Proof. by destruct (Json.lookup (py "description") f) as [[]|]. Qed.

(** The normalizer on the fields mapping [f] of the issue [d]. *)
Lemma normalize_fields d f :
  dflt (JObj []) (Json.lookup (py "fields") d) = JObj f ->
  RawIssue.text_or_absent (Json.lookup (py "id") d) = true ->
  RawIssue.text_or_absent (Json.lookup (py "key") d) = true ->
  RawIssue.fields_ok f = true ->
  exists desc,
    clean_text (dflt JNull (Json.lookup (py "description") f)) = Ok desc /\
    normalize_issue (JObj d) =
    Ok (JiraIssue.mk
          (RawIssue.at_path [py "id"] (JObj d))
          (RawIssue.at_path [py "key"] (JObj d))
          (RawIssue.at_path [py "summary"] (JObj f))
          (Some desc)
          (RawIssue.at_path [py "status"; py "name"] (JObj f))
          (RawIssue.at_path [py "priority"; py "name"] (JObj f))
          (RawIssue.at_path [py "created"] (JObj f))
          (RawIssue.at_path [py "assignee"; py "displayName"] (JObj f))
          (RawIssue.at_path [py "project"; py "name"] (JObj f))).
Proof.
  intros Hf Hid Hkey Hok. unfold RawIssue.fields_ok in Hok.
  repeat (apply andb_true_iff in Hok as [Hok ?]).
  destruct (clean_text_ok _ (description_step f ltac:(done))) as [desc Hdesc].
  destruct (named_step (py "name") (py "status") f ltac:(done))
    as (st & Hst & Hstv & Hstp).
  destruct (named_step (py "name") (py "priority") f ltac:(done))
    as (pr & Hpr & Hprv & Hprp).
  destruct (guarded_step (py "displayName") (py "assignee") f ltac:(done))
    as (asg & Hasg & Hasgv & Hasgp).
  destruct (guarded_step (py "name") (py "project") f ltac:(done))
    as (pj & Hpj & Hpjv & Hpjp).
  exists desc. split; [done|].
  unfold normalize_issue.
  rewrite (get_obj d (py "fields")), Hf. bind_step.
  rewrite (get_obj d (py "id")). bind_step.
  rewrite (get_obj d (py "key")). bind_step.
  rewrite (get_obj f (py "summary")). bind_step.
  rewrite (get_obj f (py "description")). bind_step.
  rewrite Hdesc. bind_step.
  rewrite (get_obj f (py "status") (JObj [])). bind_step.
  rewrite Hst. bind_step.
  rewrite (get_obj f (py "priority") (JObj [])). bind_step.
  rewrite Hpr. bind_step.
  rewrite (get_obj f (py "created")). bind_step.
  rewrite (get_obj f (py "assignee") JNull). bind_step.
  rewrite Hasg. bind_step.
  rewrite (get_obj f (py "project") JNull). bind_step.
  rewrite Hpj. bind_step.
  rewrite new_valid by (done || by apply leaf_valid).
  by rewrite Hstp, Hprp, Hasgp, Hpjp, !leaf_path.
Qed.

(** On a well-formed raw issue the normalizer returns the flat record of
    the data model, its description being the sanitized one. *)
Lemma normalize_issue_wf issue :
  RawIssue.well_formed issue = true ->
  exists desc,
    clean_text (RawIssue.description_of issue) = Ok desc /\
    normalize_issue issue = Ok (RawIssue.flat issue desc).
Proof.
  destruct issue as [| | | | | |d]; try done.
  unfold RawIssue.well_formed, RawIssue.flat, RawIssue.description_of,
    RawIssue.fields_of.
  intros H. apply andb_true_iff in H as [H Hf].
  apply andb_true_iff in H as [Hid Hkey].
  rewrite !(at_path_cons (py "fields")).
  destruct (Json.lookup (py "fields") d) as [[| | | | | |f]|] eqn:Hl;
    try done.
  - apply normalize_fields; try done. by rewrite Hl.
  - destruct (normalize_fields d []) as (desc & Hdesc & Hn); try done.
    + by rewrite Hl.
    + exists desc. split; [done|]. rewrite Hn.
      simpl in Hdesc. by injection Hdesc as <-.
Qed.

Lemma leaf_valid_inv o :
  JiraIssue.valid (dflt JNull o) = true -> RawIssue.text_or_absent o = true.
Proof. by destruct o as [[]|]. Qed.

Lemma new_ok_inv id key summary description status priority created
    assignee project n :
  JiraIssue.new id key summary description status priority created
    assignee project = Ok n ->
  JiraIssue.valid id = true /\ JiraIssue.valid key = true /\
  JiraIssue.valid summary = true /\ JiraIssue.valid status = true /\
  JiraIssue.valid priority = true /\ JiraIssue.valid created = true /\
  JiraIssue.valid assignee = true /\ JiraIssue.valid project = true.
Proof.
  unfold JiraIssue.new. cbn [List.filter snd].
  destruct (JiraIssue.valid id); [|done].
  destruct (JiraIssue.valid key); [|done].
  destruct (JiraIssue.valid summary); [|done].
  destruct (JiraIssue.valid description); [|done].
  destruct (JiraIssue.valid status); [|done].
  destruct (JiraIssue.valid priority); [|done].
  destruct (JiraIssue.valid created); [|done].
  destruct (JiraIssue.valid assignee); [|done].
  destruct (JiraIssue.valid project); [|done].
  done.
Qed.

Lemma named_step_inv name k f v :
  get (dflt (JObj []) (Json.lookup k f)) name JNull = Ok v ->
  JiraIssue.valid v = true ->
  RawIssue.named name (Json.lookup k f) = true.
Proof.
  destruct (Json.lookup k f) as [[| | | | | |d]|]; simpl; try done.
  intros [= <-]. apply leaf_valid_inv.
Qed.

Lemma guarded_step_inv name k f v :
  (if Json.truthy (dflt JNull (Json.lookup k f))
   then parent ← get (JObj f) k (JObj []); get parent name JNull
   else Ok JNull) = Ok v ->
  JiraIssue.valid v = true ->
  RawIssue.named_or_null name (Json.lookup k f) = true.
Proof.
  rewrite get_obj. unfold RawIssue.named_or_null.
  destruct (Json.lookup k f) as [p|]; [|done].
  cbn [from_option]. destruct (Json.truthy p); [|done].
  bind_step. cbn [negb orb].
  destruct p as [| | | | | |d]; simpl; try done.
  intros [= <-]. apply leaf_valid_inv.
Qed.

Lemma normalize_fields_inv d f n :
  dflt (JObj []) (Json.lookup (py "fields") d) = JObj f ->
  normalize_issue (JObj d) = Ok n ->
  RawIssue.text_or_absent (Json.lookup (py "id") d) = true /\
  RawIssue.text_or_absent (Json.lookup (py "key") d) = true /\
  RawIssue.fields_ok f = true.
Proof.
  intros Hf H. unfold normalize_issue in H.
  rewrite (get_obj d (py "fields")), Hf in H. bind_step_in H.
  rewrite (get_obj d (py "id")) in H. bind_step_in H.
  rewrite (get_obj d (py "key")) in H. bind_step_in H.
  rewrite (get_obj f (py "summary")) in H. bind_step_in H.
  rewrite (get_obj f (py "description")) in H. bind_step_in H.
  destruct (clean_text _) as [desc|] eqn:Hdesc; [|done]. bind_step_in H.
  rewrite (get_obj f (py "status") (JObj [])) in H. bind_step_in H.
  destruct (get _ (py "name") JNull) as [st|] eqn:Hst in H; [|done].
  bind_step_in H.
  rewrite (get_obj f (py "priority") (JObj [])) in H. bind_step_in H.
  destruct (get _ (py "name") JNull) as [pr|] eqn:Hpr in H; [|done].
  bind_step_in H.
  rewrite (get_obj f (py "created")) in H. bind_step_in H.
  rewrite (get_obj f (py "assignee") JNull) in H. bind_step_in H.
  match type of H with
  | mbind _ ?m = _ => destruct m as [asg|] eqn:Hasg; [|done]
  end.
  bind_step_in H.
  rewrite (get_obj f (py "project") JNull) in H. bind_step_in H.
  match type of H with
  | mbind _ ?m = _ => destruct m as [pj|] eqn:Hpj; [|done]
  end.
  bind_step_in H.
  apply new_ok_inv in H as (? & ? & ? & ? & ? & ? & ? & ?).
  apply clean_text_ok_inv in Hdesc.
  split; [by apply leaf_valid_inv|]. split; [by apply leaf_valid_inv|].
  unfold RawIssue.fields_ok. repeat (apply andb_true_iff; split).
  - by apply leaf_valid_inv.
  - by destruct (Json.lookup (py "description") f) as [[]|].
  - by eapply named_step_inv.
  - by eapply named_step_inv.
  - by apply leaf_valid_inv.
  - by eapply guarded_step_inv.
  - by eapply guarded_step_inv.
Qed.

(** ... and it returns on no other input. *)
Lemma normalize_issue_ok_wf issue n :
  normalize_issue issue = Ok n -> RawIssue.well_formed issue = true.
Proof.
  destruct issue as [| | | | | |d]; try done.
  intros H. unfold RawIssue.well_formed.
  destruct (Json.lookup (py "fields") d) as [fv|] eqn:Hl.
  - assert (Hfv : exists f, fv = JObj f).
    { unfold normalize_issue in H.
      rewrite (get_obj d (py "fields")), Hl in H. cbn [from_option] in H.
      destruct fv; eauto; discriminate H. }
    destruct Hfv as [f ->].
    destruct (normalize_fields_inv d f n) as (-> & -> & ->); try done.
    by rewrite Hl.
  - destruct (normalize_fields_inv d [] n) as (-> & -> & _); try done.
    by rewrite Hl.
Qed.

Lemma normalize_issue_ok_iff issue :
  (exists n, normalize_issue issue = Ok n) <->
  RawIssue.well_formed issue = true.
Proof.
  split.
  - intros [n H]. by eapply normalize_issue_ok_wf.
  - intros H. destruct (normalize_issue_wf issue H) as (desc & _ & Hn). eauto.
Qed.

(** What the normalizer returns is the flat record. *)
Lemma normalize_issue_flat issue n :
  normalize_issue issue = Ok n ->
  exists desc,
    clean_text (RawIssue.description_of issue) = Ok desc /\
    n = RawIssue.flat issue desc.
Proof.
  intros H.
  destruct (normalize_issue_wf issue (normalize_issue_ok_wf _ _ H))
    as (desc & Hdesc & Hn).
  exists desc. split; [done|]. congruence.
Qed.

(** The loop appends, in order, what the body returns for each element. *)
Lemma normalize_loop_ok issues : forall acc out,
  normalize_loop issues acc = Ok out <->
  exists ns,
    Forall2 (fun r n => normalize_issue r = Ok n) issues ns /\
    out = acc ++ ns.
Proof.
  induction issues as [|r issues IH]; intros acc out; simpl.
  - split.
    + intros [= <-]. exists []. by rewrite app_nil_r.
    + intros (ns & Hns & ->). apply Forall2_nil_inv_l in Hns as ->.
      by rewrite app_nil_r.
  - split.
    + intros H. apply bind_ok_inv in H as (n & Hn & H).
      apply IH in H as (ns & Hns & ->).
      exists (n :: ns). split; [by constructor|]. by rewrite <- app_assoc.
    + intros (ns & Hns & ->).
      apply Forall2_cons_inv_l in Hns as (n & ns' & Hn & Hns & ->).
      rewrite Hn. bind_step. apply IH. exists ns'.
      split; [done|]. by rewrite <- app_assoc.
Qed.

(** The loop stops at the first element the body raises on. *)
Lemma normalize_loop_raise issues : forall acc e,
  normalize_loop issues acc = Raise e ->
  exists r, r ∈ issues /\ normalize_issue r = Raise e.
Proof.
  induction issues as [|r issues IH]; intros acc e; simpl; [done|].
  destruct (normalize_issue r) as [n|e'] eqn:Hn.
  - bind_step. intros H. apply IH in H as (r' & Hin & Hr').
    exists r'. split; [by right|done].
  - bind_step. intros [= <-]. exists r. split; [by left|done].
Qed.


(** ** The writer, and reading its lines back *)

(** The serializer returns on the records whose texts can be encoded, and
    on no other. *)
Lemma model_dump_json_ok item :
  forallb utf8_encodable (JiraIssue.texts item) = true ->
  JiraIssue.model_dump_json item = Ok (JiraIssue.to_json item).
Proof.
  intros Hall. unfold JiraIssue.model_dump_json.
  destruct (List.find _ _) as [s|] eqn:Hfind; [|done].
  apply find_some in Hfind as [Hin Hs].
  rewrite forallb_forall in Hall. rewrite (Hall s Hin) in Hs. done.
Qed.

Lemma model_dump_json_raise item :
  forallb utf8_encodable (JiraIssue.texts item) = false ->
  exists s, In s (JiraIssue.texts item) /\ utf8_encodable s = false /\
    JiraIssue.model_dump_json item = Raise (PydanticSerializationError s).
Proof.
  intros Hall. unfold JiraIssue.model_dump_json.
  destruct (List.find _ _) as [s|] eqn:Hfind.
  - apply find_some in Hfind as [Hin Hs]. apply negb_true_iff in Hs. eauto.
  - assert (forallb utf8_encodable (JiraIssue.texts item) = true) as Hyes;
      [|congruence].
    apply forallb_forall. intros s Hin.
    pose proof (find_none _ _ Hfind s Hin) as Hs.
    by apply negb_false_iff in Hs.
Qed.

Lemma model_dump_json_inv item line :
  JiraIssue.model_dump_json item = Ok line ->
  forallb utf8_encodable (JiraIssue.texts item) = true /\
  line = JiraIssue.to_json item.
Proof.
  intros H.
  destruct (forallb utf8_encodable (JiraIssue.texts item)) eqn:Hall.
  - rewrite model_dump_json_ok in H by done. by injection H.
  - destruct (model_dump_json_raise item Hall) as (s & _ & _ & Hr).
    congruence.
Qed.

(** What the serializer returns can be encoded, so the write of a line
    does not raise. *)
Lemma utf8_encodable_Forall s :
  utf8_encodable s = true <-> Forall (fun c => surrogate c = false) s.
Proof.
  unfold utf8_encodable. rewrite forallb_forall, Forall_forall.
  split; intros H c Hc.
  - apply negb_true_iff, H. by apply list_elem_of_In.
  - apply negb_true_iff, H. by apply list_elem_of_In.
Qed.

Lemma below_surrogate c : (c < 55296)%N -> surrogate c = false.
Proof.
  intros Hc. unfold surrogate. apply andb_false_iff. left.
  apply N.leb_gt. done.
Qed.

Lemma hex_digit_plain n : (n < 16)%N -> surrogate (Json.hex_digit n) = false.
Proof.
  intros Hn. apply below_surrogate. unfold Json.hex_digit.
  destruct (n <? 10)%N; lia.
Qed.

Lemma escape_encodable c :
  surrogate c = false ->
  Forall (fun x => surrogate x = false) (JiraIssue.escape c).
Proof.
  intros Hc. unfold JiraIssue.escape, Json.u_escape.
  repeat (case_match; [repeat constructor; done|]).
  case_match; [|by repeat constructor].
  repeat constructor; try done;
    apply hex_digit_plain, N.mod_upper_bound; done.
Qed.

Lemma dump_optional_encodable v :
  from_option utf8_encodable true v = true ->
  Forall (fun x => surrogate x = false) (JiraIssue.dump_optional v).
Proof.
  destruct v as [s|]; [|by repeat constructor].
  cbn [from_option]. intros Hs%utf8_encodable_Forall.
  simpl. unfold JiraIssue.dump_str. constructor; [done|].
  apply Forall_app. split; [|by repeat constructor].
  apply Forall_flat_map. eapply Forall_impl; [exact Hs|].
  intros c Hc. by apply escape_encodable.
Qed.

Lemma to_json_encodable item :
  forallb utf8_encodable (JiraIssue.texts item) = true ->
  utf8_encodable (JiraIssue.to_json item ++ [LF]) = true.
Proof.
  intros Hall. apply utf8_encodable_Forall.
  assert (Hfield : forall v,
            In v [JiraIssue.id item; JiraIssue.key item;
                  JiraIssue.summary item; JiraIssue.description item;
                  JiraIssue.status item; JiraIssue.priority item;
                  JiraIssue.created item; JiraIssue.assignee item;
                  JiraIssue.project item] ->
            Forall (fun x => surrogate x = false)
              (JiraIssue.dump_optional v)).
  { intros [s|] Hin; apply dump_optional_encodable; [|done].
    cbn [from_option]. rewrite forallb_forall in Hall. apply Hall.
    unfold JiraIssue.texts. apply list_elem_of_In, list_elem_of_omap.
    exists (Some s). split; [by apply list_elem_of_In|done]. }
  apply Forall_app. split; [|by repeat constructor].
  unfold JiraIssue.to_json, JiraIssue.dump_field.
  repeat first
    [ apply Forall_cons; split; [done|]
    | apply Forall_app; split
    | apply Hfield; cbn [In]; tauto
    | apply Forall_nil_2
    | by apply utf8_encodable_Forall ].
Qed.

Lemma alter_app_nil (filename : pystr) (m : gmap pystr pystr) :
  alter (fun content : pystr => content ++ []) filename m = m.
Proof.
  apply map_eq. intros k. rewrite lookup_alter.
  case_decide; [|done]. subst.
  destruct (m !! k); simpl; by rewrite ?app_nil_r.
Qed.

(** The loop adds to the file the lines of the records before the first
    one that cannot be serialized, and changes nothing else. *)
Lemma write_items_files data filename : forall w,
  files (write_items data filename w).2 =
  alter (fun content => content ++ written data) filename (files w).
Proof.
  induction data as [|item data IH]; intros w;
    cbn [write_items written]; unfold io_bind, io_lift.
  - cbn [snd]. by rewrite alter_app_nil.
  - destruct (JiraIssue.model_dump_json item) as [line|e] eqn:Hdump.
    + apply model_dump_json_inv in Hdump as [Hall ->].
      unfold write at 1. rewrite (to_json_encodable item Hall).
      rewrite IH. unfold with_files. cbn [files].
      rewrite alter_alter_eq. apply alter_ext. intros c _.
      unfold compose. by rewrite <- !app_assoc.
    + cbn [snd]. by rewrite alter_app_nil.
Qed.

Lemma write_items_frame data filename : forall w,
  jira_client (write_items data filename w).2 = jira_client w /\
  unwritable (write_items data filename w).2 = unwritable w /\
  stdout (write_items data filename w).2 = stdout w.
Proof.
  induction data as [|item data IH]; intros w;
    cbn [write_items]; unfold io_bind, io_lift; [done|].
  destruct (JiraIssue.model_dump_json item) as [line|e] eqn:Hdump; [|done].
  apply model_dump_json_inv in Hdump as [Hall ->].
  unfold write at 1 2 3. rewrite (to_json_encodable item Hall).
  destruct (IH (with_files
                  (alter (fun content =>
                            content ++ JiraIssue.to_json item ++ [LF])
                     filename) w))
    as (-> & -> & ->). done.
Qed.

Lemma write_items_ok data filename w :
  serializable data = true ->
  (write_items data filename w).1 = Ok tt /\ written data = jsonl data.
Proof.
  revert w. induction data as [|item data IH]; intros w Hall; [done|].
  cbn [serializable forallb] in Hall.
  apply andb_true_iff in Hall as [Hitem Hall].
  cbn [write_items written]. unfold io_bind, io_lift.
  rewrite (model_dump_json_ok item Hitem).
  unfold write. rewrite (to_json_encodable item Hitem).
  destruct (IH (with_files
                  (alter (fun content =>
                            content ++ JiraIssue.to_json item ++ [LF])
                     filename) w) Hall)
    as [-> ->].
  split; [done|]. unfold jsonl. cbn [flat_map].
  by rewrite <- app_assoc.
Qed.

Lemma write_items_raise data filename w :
  serializable data = false ->
  exists s, utf8_encodable s = false /\
    (write_items data filename w).1 = Raise (PydanticSerializationError s).
Proof.
  revert w. induction data as [|item data IH]; intros w Hall; [done|].
  cbn [serializable forallb] in Hall.
  cbn [write_items]. unfold io_bind, io_lift.
  destruct (forallb utf8_encodable (JiraIssue.texts item)) eqn:Hitem.
  - rewrite (model_dump_json_ok item Hitem).
    unfold write. rewrite (to_json_encodable item Hitem).
    apply IH. exact Hall.
  - destruct (model_dump_json_raise item Hitem) as (s & _ & Hs & ->). eauto.
Qed.

(** On a target that can be opened the writer replaces what the file held
    by the lines it wrote. *)
Lemma save_to_jsonl_files data filename w :
  unwritable w filename = false ->
  files (save_to_jsonl data filename w).2 =
  <[filename := written data]> (files w).
Proof.
  intros Hw. unfold save_to_jsonl, io_bind, open_w. rewrite Hw.
  rewrite write_items_files. unfold with_files. cbn [files].
  by rewrite alter_insert_eq.
Qed.

(** When every record can be serialized, these are exactly the lines of
    the records. *)
Lemma save_to_jsonl_ok data filename w :
  unwritable w filename = false ->
  serializable data = true ->
  exists w',
    save_to_jsonl data filename w = (Ok tt, w') /\
    files w' = <[filename := jsonl data]> (files w).
Proof.
  intros Hw Hall. exists (save_to_jsonl data filename w).2.
  pose proof (save_to_jsonl_files data filename w Hw) as Hf.
  unfold save_to_jsonl, io_bind, open_w in *. rewrite Hw in *.
  destruct (write_items_ok data filename
              (with_files (insert filename []) w) Hall) as [Hok Hwr].
  rewrite <- Hwr, <- Hf. split; [|done].
  destruct (write_items data filename _) as [r w']. simpl in *. by subst r.
Qed.

Lemma save_to_jsonl_refused data filename w :
  unwritable w filename = true ->
  save_to_jsonl data filename w = (Raise (OSError filename), w).
Proof.
  intros Hw. unfold save_to_jsonl, io_bind, open_w. by rewrite Hw.
Qed.

(** A save that returns has opened its target and serialized every
    record. *)
Lemma save_to_jsonl_ok_inv data filename w :
  (save_to_jsonl data filename w).1 = Ok tt ->
  unwritable w filename = false /\ serializable data = true.
Proof.
  intros Hok.
  destruct (unwritable w filename) eqn:Hw.
  { by rewrite save_to_jsonl_refused in Hok. }
  split; [done|].
  destruct (serializable data) eqn:Hall; [done|].
  unfold save_to_jsonl, io_bind, open_w in Hok. rewrite Hw in Hok.
  destruct (write_items_raise data filename
              (with_files (insert filename []) w) Hall) as (s & _ & Hr).
  congruence.
Qed.

(** A line of the writer holds no control character, so no line break. *)
Lemma hex_digit_printable n : (32 <= Json.hex_digit n)%N.
Proof. unfold Json.hex_digit. destruct (n <? 10)%N; lia. Qed.

Lemma escape_printable c : Forall (fun x => (32 <= x)%N) (JiraIssue.escape c).
Proof.
  unfold JiraIssue.escape, Json.u_escape.
  repeat (case_match; [repeat constructor; done|]).
  destruct (N.ltb_spec c 32).
  - repeat constructor; try done; apply hex_digit_printable.
  - by repeat constructor.
Qed.

Lemma dump_optional_printable v :
  Forall (fun x => (32 <= x)%N) (JiraIssue.dump_optional v).
Proof.
  destruct v as [s|]; [|by repeat constructor].
  simpl. unfold JiraIssue.dump_str. constructor; [done|].
  apply Forall_app. split; [|by repeat constructor].
  apply Forall_flat_map, Forall_forall. intros c _. apply escape_printable.
Qed.

Lemma to_json_printable item :
  Forall (fun x => (32 <= x)%N) (JiraIssue.to_json item).
Proof.
  unfold JiraIssue.to_json, JiraIssue.dump_field.
  repeat first
    [ apply Forall_cons; split; [done|]
    | apply Forall_app; split
    | apply dump_optional_printable
    | apply Forall_nil_2 ].
Qed.

Lemma lines_from_line body : forall cur rest,
  Forall (fun x => (32 <= x)%N) body ->
  lines_from cur false (body ++ LF :: rest) =
  (cur ++ body) :: lines_from [] false rest.
Proof.
  induction body as [|c body IH]; intros cur rest Hb; simpl.
  - by rewrite app_nil_r.
  - apply Forall_cons in Hb as [Hc Hb].
    destruct (N.eqb_spec c LF) as [->|_]; [done|].
    destruct (N.eqb_spec c CR) as [->|_]; [done|].
    rewrite IH by done. by rewrite <- app_assoc.
Qed.

Lemma file_lines_jsonl data :
  file_lines (jsonl data) = map JiraIssue.to_json data.
Proof.
  unfold file_lines. induction data as [|item data IH]; [done|].
  unfold jsonl in *. cbn [flat_map map]. rewrite <- app_assoc. cbn [app].
  rewrite lines_from_line by apply to_json_printable.
  by rewrite IH.
Qed.

(** ** The reader inverts the serializer *)

Lemma strip_prefix_app p s : Reader.strip_prefix p (p ++ s) = Some s.
Proof.
  induction p as [|a p IH]; [by destruct s|].
  simpl. by rewrite N.eqb_refl.
Qed.

Lemma string_body_control c t :
  (c < 32)%N ->
  Reader.string_body (JiraIssue.escape c ++ t) =
  match Reader.string_body t with
  | Some (body, rest) => Some (c :: body, rest)
  | None => None
  end.
Proof.
  intros Hc. rewrite <- (N2Nat.id c).
  assert (Hn : N.to_nat c < 32) by lia. revert Hn.
  generalize (N.to_nat c) as n. intros n Hn.
  do 32 (destruct n as [|n]; [reflexivity|]). lia.
Qed.

Lemma string_body_escape_char c t :
  Reader.string_body (JiraIssue.escape c ++ t) =
  match Reader.string_body t with
  | Some (body, rest) => Some (c :: body, rest)
  | None => None
  end.
Proof.
  destruct (N.ltb_spec c 32) as [Hc|Hc]; [by apply string_body_control|].
  unfold JiraIssue.escape.
  destruct (N.eqb_spec c QUOTE) as [->|Hq]; [reflexivity|].
  destruct (N.eqb_spec c BACKSLASH) as [->|Hb]; [reflexivity|].
  repeat match goal with
         | |- context [N.eqb c ?k] => destruct (N.eqb_spec c k); [lia|]
         end.
  destruct (N.ltb_spec c 32); [lia|].
  cbn [app Reader.string_body].
  apply N.eqb_neq in Hq as ->. apply N.eqb_neq in Hb as ->.
  apply N.ltb_ge in Hc as ->. done.
Qed.

Lemma string_body_escape s rest :
  Reader.string_body (flat_map JiraIssue.escape s ++ QUOTE :: rest) =
  Some (s, rest).
Proof.
  induction s as [|c s IH]; [done|].
  cbn [flat_map]. rewrite <- app_assoc, string_body_escape_char. by rewrite IH.
Qed.

Lemma optional_str_dump v rest :
  Reader.optional_str (JiraIssue.dump_optional v ++ rest) = Some (v, rest).
Proof.
  destruct v as [s|]; [|reflexivity].
  unfold JiraIssue.dump_optional, JiraIssue.dump_str.
  rewrite <- app_comm_cons, <- app_assoc.
  unfold Reader.optional_str. cbn [Reader.strip_prefix py map
    list_ascii_of_string].
  change (N_of_ascii "n" =? QUOTE)%N with false.
  change (QUOTE =? QUOTE)%N with true. cbv iota. cbn [app].
  by rewrite string_body_escape.
Qed.

Lemma field_dump lead name v rest :
  Reader.field lead name (lead :: JiraIssue.dump_field name v ++ rest) =
  Some (v, rest).
Proof.
  unfold Reader.field, JiraIssue.dump_field.
  replace (lead :: (QUOTE :: py name ++ QUOTE :: chr ":"
                      :: JiraIssue.dump_optional v) ++ rest)
    with ((lead :: QUOTE :: py name ++ [QUOTE; chr ":"])
            ++ JiraIssue.dump_optional v ++ rest).
  - by rewrite strip_prefix_app, optional_str_dump.
  - cbn [app]. by rewrite <- !app_assoc.
Qed.

(** Every line the writer produces parses back into the record it came
    from. *)
Lemma reader_to_json item :
  Reader.issue (JiraIssue.to_json item) = Some item.
Proof.
  destruct item. unfold JiraIssue.to_json, Reader.issue.
  cbn [JiraIssue.id JiraIssue.key JiraIssue.summary JiraIssue.description
       JiraIssue.status JiraIssue.priority JiraIssue.created
       JiraIssue.assignee JiraIssue.project].
  rewrite field_dump. cbn [mbind option_bind].
  do 8 (rewrite field_dump; cbn [mbind option_bind]).
  by rewrite decide_True.
Qed.


(** * The properties of the design document *)

(** ** Text Sanitizer *)

(** C2 (as amended): on every input it is written for, an absent or
    otherwise empty value, a text (well-formed markup or not, whether the
    markup parser accepts it or raises) or a mapping, [clean_text] returns
    a text and does not raise; on an absent or empty input that text is
    the empty one. *)
Theorem clean_text_returns_text (v : json) :
  sanitizable v = true ->
  exists s, clean_text v = Ok s /\ (Json.truthy v = false -> s = []).
Proof.
  intros Hv. destruct (clean_text_ok v Hv) as [s Hs].
  exists s. split; [done|].
  intros Ht. rewrite clean_text_falsy in Hs by done. congruence.
Qed.

(** C5 (as amended): on a mapping that is not empty, [clean_text] returns
    the text [json.dumps] gives for it: a brace, the items in the order of
    the mapping, each the quoted key, a colon and the value, separated by
    commas, and a closing brace. *)
Theorem clean_text_mapping (d : list (pystr * json)) :
  d <> [] ->
  clean_text (JObj d) =
  Ok (chr "{"
      :: join (py ", ")
           (map (fun '(k, x) => Json.dumps_str k ++ py ": " ++ Json.dumps x)
              d)
      ++ [chr "}"]).
Proof. intros Hd. by rewrite clean_text_dict. Qed.




(** ** Issue Normalizer *)

Lemma normalize_issues_arr raws :
  normalize_issues (JArr raws) = normalize_loop raws [].
Proof. reflexivity. Qed.


Lemma at_path_parent_missing k name issue :
  RawIssue.parent_missing k issue = true ->
  RawIssue.at_path [py "fields"; k; name] issue = None.
Proof.
  destruct issue as [| | | | | |d]; try done.
  unfold RawIssue.parent_missing. rewrite at_path_cons.
  destruct (Json.lookup (py "fields") d) as [[| | | | | |f]|]; try done.
  intros H%bool_decide_eq_true. by rewrite at_path_cons, H.
Qed.

(** C4: a parent object that is not present because its key holds
    [null] is no missing key.  On [fields], [fields.status] or
    [fields.priority] set to [null] the loop body raises an
    [AttributeError], and with it [normalize_issues] on a list that holds
    such an issue; on [fields.assignee] and [fields.project] set to
    [null], which the source guards, it returns a record whose fields
    are the absence marker. *)
Theorem normalize_null_parent :
  normalize_issue null_fields_issue = Raise (AttributeError JNull (py "get")) /\
  normalize_issue null_status_issue = Raise (AttributeError JNull (py "get")) /\
  normalize_issue null_priority_issue =
    Raise (AttributeError JNull (py "get")) /\
  normalize_issues (JArr [sparse_issue; null_priority_issue]) =
    Raise (AttributeError JNull (py "get")) /\
  (exists n,
     normalize_issue unassigned_issue = Ok n /\
     JiraIssue.assignee n = None /\ JiraIssue.project n = None).
Proof.
  repeat split; try (vm_compute; reflexivity).
  eexists. split; [vm_compute; reflexivity|]. done.
Qed.

(** X25: when the key [fields], or the key [status], [priority],
    [assignee] or [project] under [fields], is missing from a well-formed
    raw issue, the normalizer does not raise: it returns a record whose
    corresponding field is the absence marker. *)
Theorem normalize_missing_parent (issue : json) :
  RawIssue.well_formed issue = true ->
  exists n,
    normalize_issue issue = Ok n /\
    (RawIssue.parent_missing (py "status") issue = true ->
     JiraIssue.status n = None) /\
    (RawIssue.parent_missing (py "priority") issue = true ->
     JiraIssue.priority n = None) /\
    (RawIssue.parent_missing (py "assignee") issue = true ->
     JiraIssue.assignee n = None) /\
    (RawIssue.parent_missing (py "project") issue = true ->
     JiraIssue.project n = None).
Proof.
  intros Hwf. destruct (normalize_issue_wf issue Hwf) as (desc & _ & Hn).
  exists (RawIssue.flat issue desc). split; [done|].
  repeat split; apply at_path_parent_missing.
Qed.

(** C10: the description of a normalized issue is always a text, never
    the absence marker; when [fields.description] is missing or [null],
    it is the empty text. *)
Theorem description_is_text (issue : json) :
  RawIssue.well_formed issue = true ->
  exists n s,
    normalize_issue issue = Ok n /\
    JiraIssue.description n = Some s /\
    (RawIssue.description_of issue = JNull -> s = []).
Proof.
  intros Hwf. destruct (normalize_issue_wf issue Hwf) as (desc & Hdesc & Hn).
  exists (RawIssue.flat issue desc), desc. split; [done|]. split; [done|].
  intros Hnull. rewrite Hnull in Hdesc. by injection Hdesc.
Qed.

(** C7: the scenario.  When the markup parser yields the three text nodes
    of the description (or rejects it, so that the tags are cut out by the
    fallback), the raw issue of the scenario normalizes to the record the
    design document gives. *)
Theorem scenario_normalizes :
  html_strings scenario_markup =
    Some [py "Crash on "; py "login"; py " for bob@example.com"]
  \/ html_strings scenario_markup = None ->
  normalize_issues (JArr [scenario_issue]) = Ok [scenario_normalized].
Proof.
  intros Hsoup.
  destruct (normalize_issue_wf scenario_issue eq_refl) as (desc & Hdesc & Hn).
  rewrite normalize_issues_arr. cbn [normalize_loop].
  rewrite Hn. bind_step.
  change (RawIssue.description_of scenario_issue)
    with (JStr scenario_markup) in Hdesc.
  rewrite clean_text_str in Hdesc by done.
  destruct Hsoup as [Hsoup | Hsoup]; rewrite Hsoup in Hdesc;
    injection Hdesc as <-; vm_compute; reflexivity.
Qed.

(** ** Persistence Writer *)

(** C6: on a target that can be opened, and for records whose texts can
    all be encoded (none holds a lone surrogate), [save_to_jsonl]
    replaces whatever the target held by one line per record, in the
    order of the records, each ended by a line feed, and touches no other
    file; read back line by line the target gives as many lines as there
    were records, the line at each index being what [model_dump_json]
    returns on the record at that index, and each line parses back into
    the record it was written from. *)
Theorem save_to_jsonl_round_trip (data : list JiraIssue.t)
    (filename : pystr) (w : world) :
  unwritable w filename = false ->
  serializable data = true ->
  exists w' content,
    save_to_jsonl data filename w = (Ok tt, w') /\
    files w' !! filename = Some content /\
    content =
      flat_map (fun item => JiraIssue.to_json item ++ [LF]) data /\
    (forall other, other <> filename ->
       files w' !! other = files w !! other) /\
    length (file_lines content) = length data /\
    Forall2 (fun line item =>
               JiraIssue.model_dump_json item = Ok line /\
               Reader.issue line = Some item)
      (file_lines content) data.
Proof.
  intros Hw Hall.
  destruct (save_to_jsonl_ok data filename w Hw Hall) as (w' & Hs & Hf).
  exists w', (jsonl data). split; [done|].
  split; [by rewrite Hf, lookup_insert_eq|]. split; [done|].
  split; [by intros other Hne; rewrite Hf, lookup_insert_ne|].
  rewrite file_lines_jsonl, length_map. split; [done|].
  apply Forall2_fmap_l, Forall_Forall2_diag, Forall_forall.
  intros item Hin. split; [|apply reader_to_json].
  apply model_dump_json_ok.
  unfold serializable in Hall. rewrite forallb_forall in Hall.
  by apply Hall, list_elem_of_In.
Qed.

(** ** Fetch Orchestrator *)

Lemma fetch_jira_issues_world jql limit w :
  fetch_jira_issues jql limit w = ((fetch_jira_issues jql limit w).1, w).
Proof. unfold fetch_jira_issues. by destruct (jira_client w). Qed.

Lemma print_ok line w :
  utf8_encodable line = true ->
  print line w =
  (Ok tt, World (jira_client w) (files w) (unwritable w) (stdout w ++ [line])).
Proof. intros H. unfold print. by rewrite H. Qed.

Lemma print_raise line w :
  utf8_encodable line = false ->
  print line w = (Raise (UnicodeEncodeError line), w).
Proof. intros H. unfold print. by rewrite H. Qed.

Lemma print_frame line w :
  jira_client (print line w).2 = jira_client w /\
  files (print line w).2 = files w /\
  unwritable (print line w).2 = unwritable w.
Proof. unfold print. by destruct (utf8_encodable line). Qed.

Lemma printed_encodable request w :
  printed request w <->
  utf8_encodable (JiraFetchRequest.jql_query request) = true.
Proof.
  unfold printed, print.
  by destruct (utf8_encodable (JiraFetchRequest.jql_query request)).
Qed.

(** The query, in the world in which the request has been printed. *)
Lemma queried_printed request w :
  printed request w ->
  queried request w =
  (fetch_jira_issues (JiraFetchRequest.jql_query request)
     (JiraFetchRequest.limit request)
     (print (JiraFetchRequest.jql_query request) w).2).1.
Proof.
  intros Hp%printed_encodable. unfold queried, io_bind.
  by rewrite print_ok.
Qed.

Lemma queried_ok_printed request w raw_issues :
  queried request w = Ok raw_issues -> printed request w.
Proof.
  intros Hq. apply printed_encodable.
  destruct (utf8_encodable (JiraFetchRequest.jql_query request)) eqn:He;
    [done|].
  unfold queried, io_bind in Hq. by rewrite print_raise in Hq.
Qed.

(** The orchestrator, stage by stage, once the request is printed. *)
Lemma fetch_jira_tokens_unfold request w :
  printed request w ->
  fetch_jira_tokens request w =
  let w0 := (print (JiraFetchRequest.jql_query request) w).2 in
  match queried request w with
  | Raise e => (Raise (HTTPException 500 (py_str e)), w0)
  | Ok raw_issues =>
      match normalize_issues raw_issues with
      | Raise e => (Raise (HTTPException 500 (py_str e)), w0)
      | Ok normalized =>
          match
            (if JiraFetchRequest.save_to_file request
             then save_to_jsonl normalized
                    (JiraFetchRequest.filename request) w0
             else (Ok tt, w0))
          with
          | (Raise e, w1) => (Raise (HTTPException 500 (py_str e)), w1)
          | (Ok _, w1) =>
              (Ok (JiraFetchResponse.mk (Z.of_nat (length normalized))
                     normalized true), w1)
          end
      end
  end.
Proof.
  intros Hp. rewrite (queried_printed request w Hp).
  apply printed_encodable in Hp.
  unfold fetch_jira_tokens, io_try, io_bind, io_lift. cbv zeta.
  rewrite (print_ok _ w Hp). cbn [snd].
  rewrite fetch_jira_issues_world.
  destruct (fetch_jira_issues _ _ _).1 as [raw|e]; cbn [fst]; [|done].
  destruct (normalize_issues raw) as [ns|e]; [|done].
  destruct (JiraFetchRequest.save_to_file request); [|done].
  by destruct (save_to_jsonl _ _ _) as [[[]|e] w1].
Qed.

(** A request whose query cannot be printed: the exception of the [print]
    leaves the orchestrator as it is, and nothing has happened. *)
Lemma fetch_jira_tokens_unprinted request w :
  utf8_encodable (JiraFetchRequest.jql_query request) = false ->
  fetch_jira_tokens request w =
  (Raise (UnicodeEncodeError (JiraFetchRequest.jql_query request)), w).
Proof.
  intros He. unfold fetch_jira_tokens, io_bind. by rewrite print_raise.
Qed.

(** C1: when the query, the normalization or the writing raises [e], the
    orchestrator raises one [HTTPException] with status 500 whose detail
    is [str(e)] and returns no response; and when it is the query or the
    normalization that raised, the files are as they were, whether or not
    saving was requested. *)
Theorem fetch_jira_tokens_fault (request : JiraFetchRequest.t) (w : world)
    (e : exn) :
  query_fault request w e \/ normalization_fault request w e
  \/ persistence_fault request w e ->
  (fetch_jira_tokens request w).1 = Raise (HTTPException 500 (py_str e)) /\
  (query_fault request w e \/ normalization_fault request w e ->
   files (fetch_jira_tokens request w).2 = files w).
Proof.
  intros Hfault.
  assert (Hprinted : printed request w).
  { destruct Hfault as [[Hp _] | [(raw & Hq & _) | (raw & ns & Hq & _)]];
      [done | by eapply queried_ok_printed..]. }
  rewrite (fetch_jira_tokens_unfold request w Hprinted). cbv zeta. split.
  - destruct Hfault
      as [[_ Hq] | [(raw & Hq & Hn) | (raw & ns & Hq & Hn & Hs & Hp)]].
    + by rewrite Hq.
    + by rewrite Hq, Hn.
    + rewrite Hq, Hn, Hs.
      destruct (save_to_jsonl _ _ _) as [r w1]. simpl in Hp. by subst r.
  - destruct (print_frame (JiraFetchRequest.jql_query request) w)
      as (_ & Hfiles & _).
    intros [[_ Hq] | (raw & Hq & Hn)].
    + by rewrite Hq.
    + by rewrite Hq, Hn.
Qed.

(** C9: when the query, the normalization and, if requested, the writing
    succeed, the orchestrator returns a response with [success] set,
    whose [issues] are the normalized records, one for each raw issue in
    the order the query returned them, and whose [count] is their number,
    an integer that is not negative. *)
Theorem fetch_jira_tokens_success (request : JiraFetchRequest.t) (w : world)
    (raw_issues : json) (normalized : list JiraIssue.t) :
  queried request w = Ok raw_issues ->
  normalize_issues raw_issues = Ok normalized ->
  (JiraFetchRequest.save_to_file request = true ->
   (save_to_jsonl normalized (JiraFetchRequest.filename request)
      (print (JiraFetchRequest.jql_query request) w).2).1 = Ok tt) ->
  exists response,
    (fetch_jira_tokens request w).1 = Ok response /\
    JiraFetchResponse.success response = true /\
    JiraFetchResponse.issues response = normalized /\
    JiraFetchResponse.count response =
      Z.of_nat (length (JiraFetchResponse.issues response)) /\
    (0 <= JiraFetchResponse.count response)%Z /\
    exists raws,
      iter raw_issues = Ok raws /\
      Forall2 (fun r n => normalize_issue r = Ok n) raws normalized.
Proof.
  intros Hq Hn Hs.
  exists (JiraFetchResponse.mk (Z.of_nat (length normalized)) normalized true).
  split; [|split; [done|split; [done|split; [done|split; [simpl; lia|]]]]].
  - rewrite (fetch_jira_tokens_unfold request w
               (queried_ok_printed request w raw_issues Hq)).
    cbv zeta. rewrite Hq, Hn.
    destruct (JiraFetchRequest.save_to_file request); [|done].
    specialize (Hs eq_refl).
    destruct (save_to_jsonl _ _ _) as [r w1]. simpl in Hs. by subst r.
  - unfold normalize_issues in Hn.
    apply bind_ok_inv in Hn as (raws & Hiter & Hloop).
    exists raws. split; [done|].
    apply normalize_loop_ok in Hloop as (ns & Hns & ->). done.
Qed.

(** ** Further properties of the normalizer and the sanitizer *)

(** X1: a status or a priority that is there but is no mapping, [null]
    in particular, is no missing key: the lookup returns it, not the
    default mapping, and asking it for its name raises an
    [AttributeError].  Unlike the assignee and the project, the two have
    no guard. *)
Theorem null_priority_raises (d f : list (pystr * json)) (v : json) :
  Json.lookup (py "fields") d = Some (JObj f) ->
  sanitizable (dflt JNull (Json.lookup (py "description") f)) = true ->
  is_mapping v = false ->
  (Json.lookup (py "status") f = Some v ->
   normalize_issue (JObj d) = Raise (AttributeError v (py "get"))) /\
  (is_mapping (dflt (JObj []) (Json.lookup (py "status") f)) = true ->
   Json.lookup (py "priority") f = Some v ->
   normalize_issue (JObj d) = Raise (AttributeError v (py "get"))).
Proof.
  intros Hf Hdesc Hv.
  destruct (clean_text_ok _ Hdesc) as [desc Hclean].
  split.
  - intros Hst. unfold normalize_issue.
    rewrite (get_obj d (py "fields")), Hf. cbn [from_option]. bind_step.
    rewrite (get_obj d (py "id")). bind_step.
    rewrite (get_obj d (py "key")). bind_step.
    rewrite (get_obj f (py "summary")). bind_step.
    rewrite (get_obj f (py "description")). bind_step.
    rewrite Hclean. bind_step.
    rewrite (get_obj f (py "status") (JObj [])), Hst. cbn [from_option].
    bind_step. by destruct v.
  - intros Hst Hpr. unfold normalize_issue.
    rewrite (get_obj d (py "fields")), Hf. cbn [from_option]. bind_step.
    rewrite (get_obj d (py "id")). bind_step.
    rewrite (get_obj d (py "key")). bind_step.
    rewrite (get_obj f (py "summary")). bind_step.
    rewrite (get_obj f (py "description")). bind_step.
    rewrite Hclean. bind_step.
    rewrite (get_obj f (py "status") (JObj [])). bind_step.
    destruct (dflt (JObj []) (Json.lookup (py "status") f))
      as [| | | | | |sd]; try done.
    rewrite (get_obj sd (py "name")). bind_step.
    rewrite (get_obj f (py "priority") (JObj [])), Hpr. cbn [from_option].
    bind_step. by destruct v.
Qed.

(** X2: the normalizer returns a record on the well-formed raw issues, and
    on no other value. *)
Theorem normalizer_domain (issue : json) :
  (exists n, normalize_issue issue = Ok n) <->
  RawIssue.well_formed issue = true.
Proof.
  split.
  - intros [n H]. by eapply normalize_issue_ok_wf.
  - intros H. destruct (normalize_issue_wf issue H) as (desc & _ & Hn). eauto.
Qed.

Example redact_sample :
  redact_emails (py "mail user@example.com, or a@b.c@d.e") =
  py "mail [REDACTED], or [REDACTED]@d.e".
Proof. vm_compute. reflexivity. Qed.

Example fallback_sample :
  Re.sub tag_re [] (py "<div><span>text") = py "text".
Proof. vm_compute. reflexivity. Qed.

(** ** Further properties of the orchestrator *)

Lemma save_to_jsonl_world data filename w :
  let w' := (save_to_jsonl data filename w).2 in
  stdout w' = stdout w /\ jira_client w' = jira_client w /\
  unwritable w' = unwritable w /\
  (forall other, other <> filename -> files w' !! other = files w !! other) /\
  (unwritable w filename = true -> files w' = files w).
Proof.
  cbv zeta. unfold save_to_jsonl, io_bind, open_w.
  destruct (unwritable w filename) eqn:Hw; cbn [snd]; [done|].
  destruct (write_items_frame data filename
              (with_files (insert filename []) w)) as (-> & -> & ->).
  repeat split; try done.
  intros other Hne. rewrite write_items_files. unfold with_files. cbn [files].
  by rewrite lookup_alter_ne, lookup_insert_ne.
Qed.

Lemma print_stdout line w :
  stdout (print line w).2 =
  if utf8_encodable line then stdout w ++ [line] else stdout w.
Proof. unfold print. by destruct (utf8_encodable line). Qed.

(** What a run leaves of the world, by the stage it reaches. *)
Lemma fetch_jira_tokens_world request w :
  (fetch_jira_tokens request w).2 =
    (print (JiraFetchRequest.jql_query request) w).2
  \/ (JiraFetchRequest.save_to_file request = true /\
      exists normalized,
        (fetch_jira_tokens request w).2 =
        (save_to_jsonl normalized (JiraFetchRequest.filename request)
           (print (JiraFetchRequest.jql_query request) w).2).2).
Proof.
  destruct (utf8_encodable (JiraFetchRequest.jql_query request)) eqn:He.
  2: { left. by rewrite fetch_jira_tokens_unprinted, print_raise. }
  apply (printed_encodable request w) in He.
  rewrite (fetch_jira_tokens_unfold request w He). cbv zeta.
  destruct (queried request w) as [raw|e]; [|by left].
  destruct (normalize_issues raw) as [ns|e]; [|by left].
  destruct (JiraFetchRequest.save_to_file request); [|by left].
  right. split; [done|]. exists ns.
  by destruct (save_to_jsonl _ _ _) as [[[]|e] w1].
Qed.

(** X7: before start-up, or after a start-up that failed, a request
    whose query can be printed ends in one failure: status 500, detail
    "Jira client not initialized"; the query is printed and nothing else
    changes.  A request whose query cannot be encoded for the standard
    output does not get that far: the [print] before the [try] raises
    [UnicodeEncodeError], which is not caught, and nothing changes. *)
Theorem fetch_without_client (request : JiraFetchRequest.t) (w : world) :
  jira_client w = None ->
  (utf8_encodable (JiraFetchRequest.jql_query request) = true ->
   fetch_jira_tokens request w =
   (Raise (HTTPException 500 (py "Jira client not initialized")),
    World None (files w) (unwritable w)
      (stdout w ++ [JiraFetchRequest.jql_query request]))) /\
  (utf8_encodable (JiraFetchRequest.jql_query request) = false ->
   fetch_jira_tokens request w =
   (Raise (UnicodeEncodeError (JiraFetchRequest.jql_query request)), w)).
Proof.
  intros Hc. split; [|apply fetch_jira_tokens_unprinted].
  intros He. pose proof (proj2 (printed_encodable request w) He) as Hp.
  rewrite (fetch_jira_tokens_unfold request w Hp). cbv zeta.
  assert (Hq : queried request w =
               Raise (RuntimeError (py "Jira client not initialized"))).
  { rewrite (queried_printed request w Hp). unfold fetch_jira_issues.
    destruct (print_frame (JiraFetchRequest.jql_query request) w)
      as (-> & _). by rewrite Hc. }
  rewrite Hq, print_ok by done. cbn [snd]. by rewrite Hc.
Qed.

Lemma queried_client request w client :
  printed request w ->
  jira_client w = Some client ->
  queried request w =
  (results ← client (JiraFetchRequest.jql_query request)
               (JiraFetchRequest.limit request);
   get results (py "issues") (JArr [])).
Proof.
  intros Hp Hc. rewrite (queried_printed request w Hp).
  unfold fetch_jira_issues.
  destruct (print_frame (JiraFetchRequest.jql_query request) w) as (-> & _).
  by rewrite Hc.
Qed.

(** X8: an answer of the client that has no [issues] key is an empty
    result, not a failure: once the query is printed and the client has
    answered so, the response counts 0 issues, and when saving is
    requested the target is left empty, whatever it held. *)
Theorem missing_issues_key_is_empty (request : JiraFetchRequest.t)
    (w : world) (client : pystr -> Z -> result json)
    (results : list (pystr * json)) :
  printed request w ->
  jira_client w = Some client ->
  client (JiraFetchRequest.jql_query request)
    (JiraFetchRequest.limit request) = Ok (JObj results) ->
  Json.lookup (py "issues") results = None ->
  unwritable w (JiraFetchRequest.filename request) = false ->
  (fetch_jira_tokens request w).1 = Ok (JiraFetchResponse.mk 0 [] true) /\
  (JiraFetchRequest.save_to_file request = true ->
   files (fetch_jira_tokens request w).2
     !! JiraFetchRequest.filename request = Some []) /\
  (JiraFetchRequest.save_to_file request = false ->
   files (fetch_jira_tokens request w).2 = files w).
Proof.
  intros Hp Hc Hr Hmiss Hw.
  assert (Hq : queried request w = Ok (JArr [])).
  { rewrite (queried_client _ _ _ Hp Hc), Hr. bind_step.
    by rewrite get_obj, Hmiss. }
  destruct (print_frame (JiraFetchRequest.jql_query request) w)
    as (_ & Hfiles & Hunw).
  rewrite (fetch_jira_tokens_unfold request w Hp). cbv zeta. rewrite Hq.
  change (normalize_issues (JArr [])) with (@Ok (list JiraIssue.t) []).
  cbv iota.
  destruct (JiraFetchRequest.save_to_file request); [|by repeat split].
  destruct (save_to_jsonl_ok [] (JiraFetchRequest.filename request)
              (print (JiraFetchRequest.jql_query request) w).2)
    as (w' & -> & Hf); [by rewrite Hunw|done|].
  cbn [fst snd]. split; [done|]. split; [|done].
  intros _. by rewrite Hf, lookup_insert_eq.
Qed.

(** X9: once the query is printed, an answer of the client that is no
    mapping, or whose [issues] is [null], a number or a boolean, is a
    failure with status 500 whose detail names the type: the first has no
    [get], the second cannot be iterated. *)
Theorem malformed_answer_fails (request : JiraFetchRequest.t) (w : world)
    (client : pystr -> Z -> result json) (answer : json) :
  printed request w ->
  jira_client w = Some client ->
  client (JiraFetchRequest.jql_query request)
    (JiraFetchRequest.limit request) = Ok answer ->
  (is_mapping answer = false ->
   (fetch_jira_tokens request w).1 =
   Raise (HTTPException 500
            (py "'" ++ Json.type_name answer
             ++ py "' object has no attribute 'get'"))) /\
  (forall results v,
     answer = JObj results ->
     Json.lookup (py "issues") results = Some v ->
     not_iterable v = true ->
     (fetch_jira_tokens request w).1 =
     Raise (HTTPException 500
              (py "'" ++ Json.type_name v ++ py "' object is not iterable"))).
Proof.
  intros Hp Hc Hr. split.
  - intros Hm.
    assert (Hq : queried request w =
                 Raise (AttributeError answer (py "get"))).
    { rewrite (queried_client _ _ _ Hp Hc), Hr. bind_step.
      by destruct answer. }
    rewrite (fetch_jira_tokens_unfold request w Hp). cbv zeta.
    by rewrite Hq.
  - intros results v -> Hl Hv.
    assert (Hq : queried request w = Ok v).
    { rewrite (queried_client _ _ _ Hp Hc), Hr. bind_step.
      by rewrite get_obj, Hl. }
    rewrite (fetch_jira_tokens_unfold request w Hp). cbv zeta. rewrite Hq.
    by destruct v.
Qed.

(** X10: a run ends in one of three ways only: a response whose
    [success] is set and whose [count] is the number of its issues; an
    [HTTPException] with status 500; or, for a request whose query cannot
    be encoded for the standard output, the [UnicodeEncodeError] of the
    [print] that stands before the [try], with nothing changed.  No
    response has [success] unset, and whatever is raised once the query
    is printed leaves the orchestrator as an [HTTPException]. *)
Theorem fetch_jira_tokens_outcomes (request : JiraFetchRequest.t)
    (w : world) :
  (exists issues,
     (fetch_jira_tokens request w).1 =
     Ok (JiraFetchResponse.mk (Z.of_nat (length issues)) issues true))
  \/ (exists detail,
        (fetch_jira_tokens request w).1 = Raise (HTTPException 500 detail))
  \/ (utf8_encodable (JiraFetchRequest.jql_query request) = false /\
      fetch_jira_tokens request w =
      (Raise (UnicodeEncodeError (JiraFetchRequest.jql_query request)), w)).
Proof.
  destruct (utf8_encodable (JiraFetchRequest.jql_query request)) eqn:He.
  2: { right. right. split; [done|]. by apply fetch_jira_tokens_unprinted. }
  apply (printed_encodable request w) in He.
  rewrite (fetch_jira_tokens_unfold request w He). cbv zeta.
  destruct (queried request w) as [raw|e]; [|right; left; eauto].
  destruct (normalize_issues raw) as [ns|e]; [|right; left; eauto].
  destruct (if JiraFetchRequest.save_to_file request then _ else _)
    as [[[]|e] w1]; [left|right; left]; eauto.
Qed.

(** X11: a run prints the query of the request once, before anything
    else and whether it then succeeds or fails, and prints nothing else;
    a run whose query cannot be encoded for the standard output prints
    nothing.  The client handle is as it was. *)
Theorem fetch_jira_tokens_prints_query (request : JiraFetchRequest.t)
    (w : world) :
  stdout (fetch_jira_tokens request w).2 =
    (if utf8_encodable (JiraFetchRequest.jql_query request)
     then stdout w ++ [JiraFetchRequest.jql_query request]
     else stdout w) /\
  jira_client (fetch_jira_tokens request w).2 = jira_client w.
Proof.
  destruct (print_frame (JiraFetchRequest.jql_query request) w)
    as (Hclient & _).
  pose proof (print_stdout (JiraFetchRequest.jql_query request) w) as Hout.
  destruct (fetch_jira_tokens_world request w) as [-> | (_ & ns & ->)];
    [done|].
  destruct (save_to_jsonl_world ns (JiraFetchRequest.filename request)
              (print (JiraFetchRequest.jql_query request) w).2)
    as (-> & -> & _). done.
Qed.

(** X12: a run never touches a file other than the target of the request;
    it touches no file at all when saving is not requested, and none when
    the target cannot be opened. *)
Theorem fetch_jira_tokens_files (request : JiraFetchRequest.t) (w : world) :
  (forall other, other <> JiraFetchRequest.filename request ->
     files (fetch_jira_tokens request w).2 !! other = files w !! other) /\
  (JiraFetchRequest.save_to_file request = false ->
   files (fetch_jira_tokens request w).2 = files w) /\
  (unwritable w (JiraFetchRequest.filename request) = true ->
   files (fetch_jira_tokens request w).2 = files w).
Proof.
  destruct (print_frame (JiraFetchRequest.jql_query request) w)
    as (_ & Hfiles & Hunw).
  destruct (fetch_jira_tokens_world request w) as [-> | (Hs & ns & ->)];
    [by rewrite Hfiles|].
  destruct (save_to_jsonl_world ns (JiraFetchRequest.filename request)
              (print (JiraFetchRequest.jql_query request) w).2)
    as (_ & _ & _ & Hother & Hdenied).
  rewrite Hfiles, Hunw in *.
  split; [exact Hother|]. split; [by rewrite Hs|exact Hdenied].
Qed.

(** X13: when a run that was asked to save returns a response, the target
    holds the lines of exactly the issues of the response, in their order:
    read back and parsed, the file gives the response's issues. *)
Theorem saved_file_is_response (request : JiraFetchRequest.t) (w w' : world)
    (response : JiraFetchResponse.t) :
  fetch_jira_tokens request w = (Ok response, w') ->
  JiraFetchRequest.save_to_file request = true ->
  exists content,
    files w' !! JiraFetchRequest.filename request = Some content /\
    content = jsonl (JiraFetchResponse.issues response) /\
    Forall2 (fun line item => Reader.issue line = Some item)
      (file_lines content) (JiraFetchResponse.issues response).
Proof.
  intros H Hs.
  assert (Hp : printed request w).
  { apply printed_encodable.
    destruct (utf8_encodable (JiraFetchRequest.jql_query request)) eqn:He;
      [done|].
    by rewrite fetch_jira_tokens_unprinted in H. }
  rewrite (fetch_jira_tokens_unfold request w Hp) in H. cbv zeta in H.
  destruct (queried request w) as [raw|e]; [|done].
  destruct (normalize_issues raw) as [ns|e]; [|done].
  rewrite Hs in H.
  destruct (save_to_jsonl ns (JiraFetchRequest.filename request)
              (print (JiraFetchRequest.jql_query request) w).2)
    as [r w1] eqn:Hsave.
  destruct r as [[]|e]; [|done]. injection H as <- <-.
  destruct (save_to_jsonl_ok_inv ns (JiraFetchRequest.filename request)
              (print (JiraFetchRequest.jql_query request) w).2)
    as [Hw Hall]; [by rewrite Hsave|].
  destruct (save_to_jsonl_ok ns (JiraFetchRequest.filename request) _ Hw Hall)
    as (w2 & Hsave' & Hf).
  rewrite Hsave in Hsave'. injection Hsave' as <-.
  cbn [JiraFetchResponse.issues].
  exists (jsonl ns). split; [by rewrite Hf, lookup_insert_eq|].
  split; [done|]. rewrite file_lines_jsonl.
  apply Forall2_fmap_l, Forall_Forall2_diag, Forall_forall.
  intros item _. apply reader_to_json.
Qed.

(** X14: the writer does not append: after two saves to one target the
    file is what the second save alone would have left. *)
Theorem save_to_jsonl_last_wins (first second : list JiraIssue.t)
    (filename : pystr) (w : world) :
  unwritable w filename = false ->
  files (save_to_jsonl second filename
           (save_to_jsonl first filename w).2).2 =
  files (save_to_jsonl second filename w).2.
Proof.
  intros Hw.
  destruct (save_to_jsonl_world first filename w) as (_ & _ & Hu & _).
  cbv zeta in Hu.
  rewrite save_to_jsonl_files by (by rewrite Hu).
  rewrite !save_to_jsonl_files by done.
  by rewrite insert_insert_eq.
Qed.

(** ** Start-up *)

(** The environment names a URL (under either name), a user and a token,
    none of them empty. *)
Lemma startup_check environ :
  forallb set_and_not_empty
    [py_or (getenv environ (py "JIRA_INSTANCE_URL"))
       (getenv environ (py "JIRA_URL"));
     getenv environ (py "JIRA_USERNAME");
     getenv environ (py "JIRA_API_TOKEN")] =
  (set_and_not_empty (getenv environ (py "JIRA_INSTANCE_URL"))
   || set_and_not_empty (getenv environ (py "JIRA_URL")))
  && set_and_not_empty (getenv environ (py "JIRA_USERNAME"))
  && set_and_not_empty (getenv environ (py "JIRA_API_TOKEN")).
Proof.
  cbn [forallb]. unfold py_or. rewrite andb_true_r, andb_assoc.
  by destruct (set_and_not_empty (getenv environ (py "JIRA_INSTANCE_URL")))
    eqn:H; [rewrite H|].
Qed.

Lemma set_and_not_empty_inv x :
  set_and_not_empty x = true -> exists s, x = Some s /\ s <> [].
Proof. destruct x as [[|c s]|]; try done. intros _. by exists (c :: s). Qed.

Lemma initialize_refused environ Jira w :
  (set_and_not_empty (getenv environ (py "JIRA_INSTANCE_URL"))
   || set_and_not_empty (getenv environ (py "JIRA_URL")))
  && set_and_not_empty (getenv environ (py "JIRA_USERNAME"))
  && set_and_not_empty (getenv environ (py "JIRA_API_TOKEN")) = false ->
  initialize_jira_client environ Jira w =
  (Raise (RuntimeError (py "Missing required Jira environment variables")),
   w).
Proof.
  intros H. unfold initialize_jira_client. cbv zeta.
  by rewrite startup_check, H.
Qed.

Lemma initialize_done environ Jira w :
  (set_and_not_empty (getenv environ (py "JIRA_INSTANCE_URL"))
   || set_and_not_empty (getenv environ (py "JIRA_URL")))
  && set_and_not_empty (getenv environ (py "JIRA_USERNAME"))
  && set_and_not_empty (getenv environ (py "JIRA_API_TOKEN")) = true ->
  initialize_jira_client environ Jira w =
  (Ok tt,
   World
     (Some (Jira
              (default []
                 (py_or (getenv environ (py "JIRA_INSTANCE_URL"))
                    (getenv environ (py "JIRA_URL"))))
              (default [] (getenv environ (py "JIRA_USERNAME")))
              (default [] (getenv environ (py "JIRA_API_TOKEN"))) true))
     (files w) (unwritable w)
     (stdout w ++ [py "Jira client initialized successfully"])).
Proof.
  intros H. unfold initialize_jira_client. cbv zeta.
  by rewrite startup_check, H.
Qed.

(** X19: start-up succeeds exactly when the environment gives a URL (under
    [JIRA_INSTANCE_URL] or [JIRA_URL]), a user name and a token, a
    variable set to the empty text counting as unset.  When it succeeds it
    installs a client, prints one line and leaves the files alone; when it
    fails it raises a [RuntimeError] and changes nothing: a client
    installed earlier stays. *)
Theorem initialize_jira_client_outcome (environ : gmap pystr pystr)
    (Jira : pystr -> pystr -> pystr -> bool -> pystr -> Z -> result json)
    (w : world) :
  let complete :=
    (set_and_not_empty (environ !! py "JIRA_INSTANCE_URL")
     || set_and_not_empty (environ !! py "JIRA_URL"))
    && set_and_not_empty (environ !! py "JIRA_USERNAME")
    && set_and_not_empty (environ !! py "JIRA_API_TOKEN") in
  let run := initialize_jira_client environ Jira w in
  (complete = true ->
   run.1 = Ok tt /\
   (exists client, jira_client run.2 = Some client) /\
   files run.2 = files w /\
   stdout run.2 = stdout w ++ [py "Jira client initialized successfully"]) /\
  (complete = false ->
   run = (Raise (RuntimeError
                   (py "Missing required Jira environment variables")), w)).
Proof.
  cbv zeta. split; intros H.
  - rewrite (initialize_done environ Jira w H). cbn. eauto.
  - by apply initialize_refused.
Qed.

(** X20: the client is built for the URL under [JIRA_INSTANCE_URL] when
    that is set and not empty, and for the one under [JIRA_URL] otherwise,
    with the user name and the token of the environment and the cloud flag
    set. *)
Theorem initialize_jira_client_url (environ : gmap pystr pystr)
    (Jira : pystr -> pystr -> pystr -> bool -> pystr -> Z -> result json)
    (w : world) (username token : pystr) :
  environ !! py "JIRA_USERNAME" = Some username -> username <> [] ->
  environ !! py "JIRA_API_TOKEN" = Some token -> token <> [] ->
  (forall url : pystr,
     environ !! py "JIRA_INSTANCE_URL" = Some url -> url <> [] ->
     jira_client (initialize_jira_client environ Jira w).2 =
     Some (Jira url username token true)) /\
  (forall url : pystr,
     set_and_not_empty (environ !! py "JIRA_INSTANCE_URL") = false ->
     environ !! py "JIRA_URL" = Some url -> url <> [] ->
     jira_client (initialize_jira_client environ Jira w).2 =
     Some (Jira url username token true)).
Proof.
  intros Hu Hune Ht Htne.
  assert (Hsu : set_and_not_empty (getenv environ (py "JIRA_USERNAME"))
                = true) by (unfold getenv; rewrite Hu; by destruct username).
  assert (Hst : set_and_not_empty (getenv environ (py "JIRA_API_TOKEN"))
                = true) by (unfold getenv; rewrite Ht; by destruct token).
  split.
  - intros url Hurl Hne.
    assert (Hs : set_and_not_empty (getenv environ (py "JIRA_INSTANCE_URL"))
                 = true) by (unfold getenv; rewrite Hurl; by destruct url).
    rewrite initialize_done by (by rewrite Hs, Hsu, Hst).
    cbn [snd jira_client]. unfold py_or. rewrite Hs.
    unfold getenv. by rewrite Hurl, Hu, Ht.
  - intros url Hunset Hurl Hne.
    assert (Hs : set_and_not_empty (getenv environ (py "JIRA_URL")) = true)
      by (unfold getenv; rewrite Hurl; by destruct url).
    rewrite initialize_done
      by (rewrite Hs, Hsu, Hst; by rewrite orb_true_r).
    cbn [snd jira_client]. unfold py_or, getenv. rewrite Hunset.
    by rewrite Hurl, Hu, Ht.
Qed.

Lemma fetch_jira_tokens_cold request w :
  printed request w ->
  jira_client w = None ->
  fetch_jira_tokens request w =
  (Raise (HTTPException 500 (py "Jira client not initialized")),
   (print (JiraFetchRequest.jql_query request) w).2).
Proof.
  intros Hp Hc. rewrite (fetch_jira_tokens_unfold request w Hp). cbv zeta.
  rewrite (queried_printed request w Hp). unfold fetch_jira_issues.
  destruct (print_frame (JiraFetchRequest.jql_query request) w) as (-> & _).
  by rewrite Hc.
Qed.

(** X21: start-up and requests together, for a request whose query can be
    printed.  After a start-up that failed in a process that had no
    client, the request fails with "Jira client not initialized"; after
    one that succeeded, its query is answered by the client that was
    built, with the query and the limit of the request, and an answer
    without [issues] counts as no issue.  A request whose query cannot be
    encoded for the standard output raises the [UnicodeEncodeError] of
    the [print] instead, before any client is looked for. *)
Theorem startup_then_fetch (environ : gmap pystr pystr)
    (Jira : pystr -> pystr -> pystr -> bool -> pystr -> Z -> result json)
    (w : world) (request : JiraFetchRequest.t) :
  let started := (initialize_jira_client environ Jira w).2 in
  ((initialize_jira_client environ Jira w).1 <> Ok tt ->
   jira_client w = None ->
   (fetch_jira_tokens request started).1 =
   if utf8_encodable (JiraFetchRequest.jql_query request)
   then Raise (HTTPException 500 (py "Jira client not initialized"))
   else Raise (UnicodeEncodeError (JiraFetchRequest.jql_query request))) /\
  ((initialize_jira_client environ Jira w).1 = Ok tt ->
   exists client,
     jira_client started = Some client /\
     (utf8_encodable (JiraFetchRequest.jql_query request) = true ->
      queried request started =
      (results ← client (JiraFetchRequest.jql_query request)
                   (JiraFetchRequest.limit request);
       get results (py "issues") (JArr [])))).
Proof.
  cbv zeta.
  destruct ((set_and_not_empty (getenv environ (py "JIRA_INSTANCE_URL"))
             || set_and_not_empty (getenv environ (py "JIRA_URL")))
            && set_and_not_empty (getenv environ (py "JIRA_USERNAME"))
            && set_and_not_empty (getenv environ (py "JIRA_API_TOKEN")))
    eqn:H.
  - rewrite (initialize_done environ Jira w H). cbn [fst snd]. split; [done|].
    intros _. eexists. split; [reflexivity|]. intros He.
    apply queried_client; [by apply printed_encodable|done].
  - rewrite (initialize_refused environ Jira w H). cbn [fst snd].
    split; [|done]. intros _ Hc.
    destruct (utf8_encodable (JiraFetchRequest.jql_query request)) eqn:He.
    + rewrite fetch_jira_tokens_cold; [done| |done].
      by apply printed_encodable.
    + by rewrite fetch_jira_tokens_unprinted.
Qed.

(** ** Further properties of the normalizer *)

(** X4: what the normalizer returns is the flat record of the fixed
    paths: [id] and [key] are the texts at the top of the raw issue, the
    other fields the texts at their paths under [fields], each [None] when
    the path leads to no text, and the description is the sanitized
    [fields.description]. *)
Theorem normalize_issue_paths (issue : json) (n : JiraIssue.t) :
  normalize_issue issue = Ok n ->
  exists description,
    clean_text (RawIssue.description_of issue) = Ok description /\
    n = JiraIssue.mk
          (RawIssue.at_path [py "id"] issue)
          (RawIssue.at_path [py "key"] issue)
          (RawIssue.at_path [py "fields"; py "summary"] issue)
          (Some description)
          (RawIssue.at_path [py "fields"; py "status"; py "name"] issue)
          (RawIssue.at_path [py "fields"; py "priority"; py "name"] issue)
          (RawIssue.at_path [py "fields"; py "created"] issue)
          (RawIssue.at_path [py "fields"; py "assignee"; py "displayName"]
             issue)
          (RawIssue.at_path [py "fields"; py "project"; py "name"] issue).
Proof. apply normalize_issue_flat. Qed.

Lemma normalize_loop_first_raise raws : forall acc i r e,
  raws !! i = Some r ->
  normalize_issue r = Raise e ->
  (forall j r', j < i -> raws !! j = Some r' ->
     exists n, normalize_issue r' = Ok n) ->
  normalize_loop raws acc = Raise e.
Proof.
  induction raws as [|r0 raws IH]; intros acc i r e Hi Hr Hbefore; [done|].
  cbn [normalize_loop]. destruct i as [|i].
  - injection Hi as ->. by rewrite Hr.
  - destruct (Hbefore 0 r0 ltac:(lia) eq_refl) as [n0 Hn0].
    rewrite Hn0. bind_step. eapply IH; [exact Hi|exact Hr|].
    intros j r' Hj Hr'. apply (Hbefore (S j) r'); [lia|done].
Qed.

(** X5: one raw issue the loop body raises on fails the whole batch: when
    the issues before index [i] are well-formed and the body raises [e] on
    the issue at [i], [normalize_issues] raises [e] and returns no record,
    whatever follows. *)
Theorem normalize_issues_first_failure (raws : list json) (i : nat)
    (r : json) (e : exn) :
  raws !! i = Some r ->
  normalize_issue r = Raise e ->
  (forall j r', j < i -> raws !! j = Some r' ->
     RawIssue.well_formed r' = true) ->
  normalize_issues (JArr raws) = Raise e.
Proof.
  intros Hi Hr Hbefore. rewrite normalize_issues_arr.
  eapply normalize_loop_first_raise; [exact Hi|exact Hr|].
  intros j r' Hj Hr'. apply normalize_issue_ok_iff. by eapply Hbefore.
Qed.

Lemma at_path_falsy k name f v :
  Json.lookup k f = Some v -> Json.truthy v = false ->
  RawIssue.at_path [k; name] (JObj f) = None.
Proof.
  intros Hl Hv. rewrite at_path_cons, Hl.
  destruct v as [| | | | [] | [] | []]; done.
Qed.

(** X6: an assignee or a project that is there but [null], or empty in
    another way, is guarded: the normalizer does not raise on it, and the
    field of the record is the absence marker. *)
Theorem falsy_assignee_is_absent (issue : json) (f : list (pystr * json)) :
  RawIssue.well_formed issue = true ->
  RawIssue.fields_of issue = Some f ->
  exists n,
    normalize_issue issue = Ok n /\
    (forall v, Json.lookup (py "assignee") f = Some v ->
       Json.truthy v = false -> JiraIssue.assignee n = None) /\
    (forall v, Json.lookup (py "project") f = Some v ->
       Json.truthy v = false -> JiraIssue.project n = None).
Proof.
  intros Hwf Hf. destruct (normalize_issue_wf issue Hwf) as (desc & _ & Hn).
  exists (RawIssue.flat issue desc). split; [done|].
  destruct issue as [| | | | | |d]; try done.
  unfold RawIssue.fields_of in Hf.
  destruct (Json.lookup (py "fields") d) as [[| | | | | |f']|] eqn:Hl;
    try done.
  injection Hf as ->.
  unfold RawIssue.flat. cbn [JiraIssue.assignee JiraIssue.project].
  rewrite !(at_path_cons (py "fields")), Hl.
  split; intros v Hv Ht; by eapply at_path_falsy.
Qed.

(** X22: the normalizer reads nothing but its nine paths: two raw issues
    that agree on [id] and [key], and whose [fields] agree on the seven
    keys read there, give the same record, or the same exception. *)
Theorem normalize_issue_reads_paths (d d' f f' : list (pystr * json)) :
  Json.lookup (py "fields") d = Some (JObj f) ->
  Json.lookup (py "fields") d' = Some (JObj f') ->
  (forall k, k ∈ [py "id"; py "key"] ->
     Json.lookup k d = Json.lookup k d') ->
  (forall k, k ∈ [py "summary"; py "description"; py "status";
                  py "priority"; py "created"; py "assignee"; py "project"] ->
     Json.lookup k f = Json.lookup k f') ->
  normalize_issue (JObj d) = normalize_issue (JObj d').
Proof.
  intros Hf Hf' Htop Hfields.
  assert (Hid := Htop (py "id") ltac:(set_solver)).
  assert (Hkey := Htop (py "key") ltac:(set_solver)).
  assert (H1 := Hfields (py "summary") ltac:(set_solver)).
  assert (H2 := Hfields (py "description") ltac:(set_solver)).
  assert (H3 := Hfields (py "status") ltac:(set_solver)).
  assert (H4 := Hfields (py "priority") ltac:(set_solver)).
  assert (H5 := Hfields (py "created") ltac:(set_solver)).
  assert (H6 := Hfields (py "assignee") ltac:(set_solver)).
  assert (H7 := Hfields (py "project") ltac:(set_solver)).
  unfold normalize_issue.
  rewrite !get_obj, Hf, Hf', Hid, Hkey. cbn [from_option].
  unfold mbind at 1. unfold result_bind at 1. cbv beta iota.
  symmetry. unfold mbind at 1. unfold result_bind at 1. cbv beta iota.
  rewrite !get_obj. by rewrite H1, H2, H3, H4, H5, H6, H7.
Qed.

(** ** Further properties of the sanitizer *)

(** X15: redaction is idempotent: redacting a redacted text changes
    nothing. *)
Theorem redact_emails_idempotent (text : pystr) :
  redact_emails (redact_emails text) = redact_emails text.
Proof. apply redact_id, redact_no_match. Qed.

Lemma email_has_at m : Re.matches email_re m -> chr "@" ∈ m.
Proof.
  intros (r1 & ? & -> & _ & _ & x & ? & -> & Hx & _).
  apply N.eqb_eq in Hx as ->.
  apply elem_of_app. right. apply elem_of_cons. by left.
Qed.

(** X16: a text that holds no [@] is not touched by the redaction. *)
Theorem redact_emails_needs_at (text : pystr) :
  chr "@" ∉ text -> redact_emails text = text.
Proof.
  intros Hat. apply redact_id. intros p.
  destruct (Re.match_at email_re (drop p text)) as [k|] eqn:Hk; [|done].
  apply match_at_sound in Hk as [_ Hm]. apply email_has_at in Hm.
  exfalso. apply Hat.
  rewrite <- (take_drop p text), elem_of_app. right.
  rewrite <- (take_drop k (drop p text)), elem_of_app. by left.
Qed.

Lemma sub_empty_sublist r s : Re.sub r [] s `sublist_of` s.
Proof.
  remember (length s) as n eqn:Hn. revert s Hn.
  induction n as [n IH] using lt_wf_ind. intros s Hn.
  destruct s as [|x s]; [done|]. rewrite sub_cons.
  destruct (Re.match_at r (x :: s)) as [[|k]|].
  - apply sublist_skip. eapply IH; [|reflexivity]. simpl in Hn. lia.
  - cbn [app]. apply sublist_cons. etrans.
    + eapply IH; [|reflexivity]. rewrite length_drop. simpl in Hn. lia.
    + apply sublist_drop.
  - apply sublist_skip. eapply IH; [|reflexivity]. simpl in Hn. lia.
Qed.

Lemma tag_has_brackets m :
  Re.matches tag_re m -> chr "<" ∈ m /\ chr ">" ∈ m.
Proof.
  intros (x & ? & -> & Hx & r1 & ? & -> & _ & _ & y & ? & -> & Hy & ->).
  apply N.eqb_eq in Hx as ->. apply N.eqb_eq in Hy as ->. split.
  - apply elem_of_cons. by left.
  - apply elem_of_cons. right. apply elem_of_app. right.
    apply elem_of_cons. by left.
Qed.

Lemma sub_no_match r repl s :
  (forall p, Re.match_at r (drop p s) = None) -> Re.sub r repl s = s.
Proof.
  induction s as [|x s IH]; intros Hnone; [done|].
  rewrite sub_cons. pose proof (Hnone 0) as H0. rewrite drop_0 in H0.
  rewrite H0. f_equal. apply IH. intros p. apply (Hnone (S p)).
Qed.

Lemma tag_sub_id text :
  chr "<" ∉ text \/ chr ">" ∉ text -> Re.sub tag_re [] text = text.
Proof.
  intros Hno. apply sub_no_match. intros p.
  destruct (Re.match_at tag_re (drop p text)) as [k|] eqn:Hk; [|done].
  apply match_at_sound in Hk as [_ Hm].
  apply tag_has_brackets in Hm as [Hlt Hgt].
  assert (Hin : forall c, c ∈ take k (drop p text) -> c ∈ text).
  { intros c Hc. rewrite <- (take_drop p text), elem_of_app. right.
    rewrite <- (take_drop k (drop p text)), elem_of_app. by left. }
  destruct Hno as [Hno | Hno]; exfalso; apply Hno; by apply Hin.
Qed.

(** X17: when the markup parser rejects a text, the fallback only
    deletes.  What is then tidied (white space collapsed, addresses
    redacted) is the text with some characters left out, the others in
    their order; and it is the text itself when the text has no [<], or
    no [>]. *)
Theorem fallback_only_deletes (text : pystr) :
  html_strings text = None ->
  exists stripped,
    clean_text (JStr text) = Ok (tidy stripped) /\
    stripped `sublist_of` text /\
    (chr "<" ∉ text \/ chr ">" ∉ text -> stripped = text).
Proof.
  intros Hsoup. exists (Re.sub tag_re [] text). split; [|split].
  - destruct text as [|c text]; [reflexivity|].
    rewrite clean_text_str by done. by rewrite Hsoup.
  - apply sub_empty_sublist.
  - apply tag_sub_id.
Qed.

Lemma escape_ascii_plain c :
  plain_char c = true -> Json.escape_ascii c = [c].
Proof.
  unfold plain_char, Json.escape_ascii. intros H.
  apply andb_true_iff in H as [H Hb]. apply andb_true_iff in H as [H Hq].
  apply negb_true_iff in Hb, Hq. rewrite Hq, Hb, H.
  apply andb_true_iff in H as [Hlo _]. apply N.leb_le in Hlo.
  repeat match goal with
         | |- context [N.eqb c ?k] => destruct (N.eqb_spec c k); [lia|]
         end.
  done.
Qed.

Lemma flat_map_escape_plain s :
  forallb plain_char s = true -> flat_map Json.escape_ascii s = s.
Proof.
  induction s as [|c s IH]; [done|]. cbn [forallb flat_map].
  intros [Hc Hs]%andb_true_iff. by rewrite escape_ascii_plain, IH.
Qed.

Lemma join_infix sep (x : pystr) parts :
  In x parts -> exists u v, join sep parts = u ++ x ++ v.
Proof.
  induction parts as [|p parts IH]; [done|].
  intros [-> | Hin].
  - destruct parts as [|q parts].
    + exists [], []. by rewrite app_nil_r.
    + exists [], (sep ++ join sep (q :: parts)). done.
  - destruct (IH Hin) as (u & v & Hj).
    destruct parts as [|q parts]; [done|].
    exists (p ++ sep ++ u), v.
    change (join sep (p :: q :: parts))
      with (p ++ sep ++ join sep (q :: parts)).
    rewrite Hj. by rewrite <- !app_assoc.
Qed.

(** X18: a structured description is not sanitized.  When the description
    is a mapping, every text directly under it that is made of plain
    characters appears as it is in what [clean_text] returns; if that text
    is an address, the result is not free of addresses. *)
Theorem mapping_is_not_redacted (d : list (pystr * json)) (k s : pystr) :
  In (k, JStr s) d ->
  forallb plain_char s = true ->
  exists out,
    clean_text (JObj d) = Ok out /\
    (exists u v, out = u ++ s ++ v) /\
    (Re.matches email_re s -> ~ Re.free_of email_re out).
Proof.
  intros Hin Hplain.
  assert (Hd : d <> []) by (by destruct d).
  rewrite clean_text_dict by done. eexists. split; [reflexivity|].
  assert (Hinfix : exists u v, Json.dumps (JObj d) = u ++ s ++ v).
  { cbn [Json.dumps].
    destruct (join_infix (py ", ")
                (Json.dumps_str k ++ py ": " ++ Json.dumps (JStr s))
                (map (fun '(k, x) =>
                        Json.dumps_str k ++ py ": " ++ Json.dumps x) d))
      as (u & v & Hj).
    { apply in_map_iff. by exists (k, JStr s). }
    rewrite Hj. cbn [Json.dumps]. unfold Json.dumps_str at 2.
    rewrite flat_map_escape_plain by done.
    exists (chr "{" :: u ++ Json.dumps_str k ++ py ": " ++ [QUOTE]),
      ([QUOTE] ++ v ++ [chr "}"]).
    rewrite <- !app_assoc. cbn [app]. by rewrite <- !app_assoc. }
  split; [done|].
  intros Hm Hfree. destruct Hinfix as (u & v & Hout).
  by apply (Hfree u s v).
Qed.

(** *** White space *)

Lemma lstrip_spec s :
  exists ws, s = ws ++ lstrip s /\ starts_black (lstrip s) = true.
Proof.
  induction s as [|c s (ws & Hs & Hb)]; [by exists []|].
  cbn [lstrip]. destruct (is_space c) eqn:Hc.
  - exists (c :: ws). split; [by rewrite Hs at 1|done].
  - exists []. split; [done|]. cbn [starts_black]. by rewrite Hc.
Qed.

Lemma rstrip_spec s :
  exists ws, s = rstrip s ++ ws /\ ends_black (rstrip s) = true.
Proof.
  destruct (lstrip_spec (rev s)) as (ws & Hs & Hb).
  exists (rev ws). unfold rstrip, ends_black. rewrite rev_involutive.
  split; [|done]. rewrite <- rev_app_distr, <- Hs. by rewrite rev_involutive.
Qed.

Lemma starts_black_app a b :
  a <> [] -> starts_black (a ++ b) = starts_black a.
Proof. by destruct a. Qed.

Lemma spaced_suffix a b : spaced (a ++ b) = true -> spaced b = true.
Proof.
  induction a as [|c a IH]; [done|]. cbn [app spaced].
  intros [_ H]%andb_true_iff. by apply IH.
Qed.

Lemma spaced_prefix a b : spaced (a ++ b) = true -> spaced a = true.
Proof.
  induction a as [|c a IH]; [done|]. cbn [app spaced].
  intros [Hc H]%andb_true_iff. rewrite (IH H), andb_true_r.
  destruct (is_space c); [|done].
  apply andb_true_iff in Hc as [-> Hb]. destruct a; [done|exact Hb].
Qed.

Lemma spaced_black_app a b :
  forallb (fun c => negb (is_space c)) a = true ->
  spaced b = true -> spaced (a ++ b) = true.
Proof.
  intros Ha Hb. induction a as [|c a IH]; [done|].
  cbn [forallb] in Ha. apply andb_true_iff in Ha as [Hc Ha].
  cbn [app spaced]. apply negb_true_iff in Hc. rewrite Hc. by apply IH.
Qed.

(** The greedy run of white space that starts a text ends where the
    stripped text starts. *)
Lemma match_at_space x s :
  Re.match_at space_re (x :: s) =
  if is_space x then Some (S (length s - length (lstrip s))) else None.
Proof.
  revert x. induction s as [|y s IH]; intros x.
  - unfold space_re. rewrite match_at_plus_cons.
    destruct (is_space x); [|done]. by rewrite match_at_plus_nil.
  - unfold space_re in *. rewrite match_at_plus_cons.
    destruct (is_space x); [|done]. rewrite IH. cbn [lstrip].
    destruct (is_space y) eqn:Hy.
    + destruct (lstrip_spec s) as (ws & Hs & _).
      assert (length (lstrip s) <= length s).
      { rewrite Hs at 2. rewrite length_app. lia. }
      do 2 f_equal. cbn [length]. lia.
    + cbn [fmap option_fmap option_map Re.match_at length].
      do 2 f_equal. lia.
Qed.

Lemma drop_run s : drop (length s - length (lstrip s)) s = lstrip s.
Proof.
  destruct (lstrip_spec s) as (ws & Hs & _).
  rewrite Hs at 1 3. rewrite length_app.
  replace (length ws + length (lstrip s) - length (lstrip s))
    with (length ws) by lia.
  by rewrite drop_app_length.
Qed.

Lemma sub_space_head s :
  starts_black s = true ->
  starts_black (Re.sub space_re (py " ") s) = true.
Proof.
  destruct s as [|d s]; [done|]. cbn [starts_black].
  intros Hd%negb_true_iff. rewrite sub_cons, match_at_space, Hd.
  cbn [starts_black]. by rewrite Hd.
Qed.

Lemma sub_space_spaced s : spaced (Re.sub space_re (py " ") s) = true.
Proof.
  remember (length s) as n eqn:Hn. revert s Hn.
  induction n as [n IH] using lt_wf_ind. intros s Hn.
  destruct s as [|x s]; [done|].
  rewrite sub_cons, match_at_space.
  destruct (is_space x) eqn:Hx.
  - rewrite drop_run. destruct (lstrip_spec s) as (ws & Hs & Hb).
    change (py " " ++ ?t) with (chr " " :: t). cbn [spaced].
    rewrite (sub_space_head _ Hb).
    rewrite (IH (length (lstrip s))); [done| |done].
    subst n. cbn [length]. rewrite Hs at 2. rewrite length_app. lia.
  - cbn [spaced]. rewrite Hx. cbn [andb].
    eapply IH; [|reflexivity]. subst n. cbn [length]. lia.
Qed.

Lemma strip_spaced s :
  spaced s = true ->
  spaced (strip s) = true /\ starts_black (strip s) = true /\
  ends_black (strip s) = true.
Proof.
  intros Hs. unfold strip.
  destruct (lstrip_spec s) as (ws & Hl & Hb).
  destruct (rstrip_spec (lstrip s)) as (ws' & Hr & He).
  rewrite Hl in Hs. apply spaced_suffix in Hs.
  split; [|split; [|done]].
  - rewrite Hr in Hs. by apply spaced_prefix in Hs.
  - destruct (rstrip (lstrip s)) as [|c t] eqn:Ht; [done|].
    rewrite Hr in Hb. exact Hb.
Qed.

Lemma redacted_nil_inv out : redacted [] out -> out = [].
Proof.
  inversion 1 as [| |m s' out' Hm _ Hr Heq]; [done|].
  apply app_eq_nil in Heq as [-> _]. by apply address_not_nil in Hm.
Qed.

Lemma redacted_not_nil s out : redacted s out -> s <> [] -> out <> [].
Proof. by destruct 1. Qed.

Lemma redacted_starts s out :
  redacted s out -> starts_black s = true -> starts_black out = true.
Proof. destruct 1; [done|done|]. intros _. reflexivity. Qed.

Lemma redacted_spaced s out :
  redacted s out -> spaced s = true -> spaced out = true.
Proof.
  induction 1 as [|x s out _ Hr IH|m s out _ _ Hr IH]; [done| |].
  - cbn [spaced]. intros [Hx Hs]%andb_true_iff.
    rewrite (IH Hs), andb_true_r.
    destruct (is_space x); [|done].
    apply andb_true_iff in Hx as [-> Hb]. cbn [andb].
    by eapply redacted_starts.
  - intros Hs%spaced_suffix. apply spaced_black_app; [reflexivity|auto].
Qed.

Lemma redacted_ends s out :
  redacted s out -> ends_black s = true -> ends_black out = true.
Proof.
  unfold ends_black.
  induction 1 as [|x s out _ Hr IH|m s out Hm _ Hr IH]; [done| |].
  - destruct s as [|y s].
    + by apply redacted_nil_inv in Hr as ->.
    + assert (Hout : out <> []) by (by eapply redacted_not_nil).
      cbn [rev] in *. rewrite starts_black_app by (by destruct (rev s)).
      intros H. specialize (IH H).
      rewrite starts_black_app; [done|]. by destruct out using rev_ind;
        [|rewrite rev_app_distr].
  - destruct s as [|y s].
    + by apply redacted_nil_inv in Hr as ->.
    + assert (Hout : out <> []) by (by eapply redacted_not_nil).
      rewrite !rev_app_distr.
      rewrite starts_black_app by (cbn [rev]; by destruct (rev s)).
      intros H. specialize (IH H).
      rewrite starts_black_app; [done|]. by destruct out using rev_ind;
        [|rewrite rev_app_distr].
Qed.

Lemma spaced_at u c v :
  spaced (u ++ c :: v) = true -> is_space c = true ->
  c = chr " " /\ starts_black v = true.
Proof.
  intros Hs%spaced_suffix Hc. cbn [spaced] in Hs. rewrite Hc in Hs.
  apply andb_true_iff in Hs as [Hs _].
  apply andb_true_iff in Hs as [Heq Hb]. by apply N.eqb_eq in Heq.
Qed.

Lemma spaced_single s :
  spaced s = true -> starts_black s = true -> ends_black s = true ->
  single_spaced s.
Proof.
  intros Hs Hb He u c v -> Hc.
  destruct (spaced_at u c v Hs Hc) as [-> Hv]. split; [done|]. split.
  - destruct u as [|a u _] using rev_ind.
    + cbn [app starts_black] in Hb. by rewrite Hc in Hb.
    + exists a, u. split; [done|].
      destruct (is_space a) eqn:Ha; [|done].
      rewrite <- app_assoc in Hs. cbn [app] in Hs.
      destruct (spaced_at u a _ Hs Ha) as [_ Hbc].
      cbn [starts_black] in Hbc. by rewrite Hc in Hbc.
  - destruct v as [|d v].
    + unfold ends_black in He. rewrite rev_app_distr in He.
      cbn [rev app starts_black] in He. by rewrite Hc in He.
    + exists d, v. split; [done|]. by apply negb_true_iff.
Qed.

Lemma tidy_single_spaced text : single_spaced (tidy text).
Proof.
  unfold tidy.
  destruct (strip_spaced _ (sub_space_spaced text)) as (Hs & Hb & He).
  pose proof (redact_redacted (strip (Re.sub space_re (py " ") text))) as Hr.
  apply spaced_single.
  - by eapply redacted_spaced.
  - by eapply redacted_starts.
  - by eapply redacted_ends.
Qed.

(** X3: white space collapses.  Whatever text the sanitizer is given and
    whatever the markup parser does with it, in the text it returns every
    white-space character is a plain space that stands alone between two
    characters that are no white space: no run of white space, no line
    feed or tab, nothing at either end. *)
Theorem whitespace_collapses (text : pystr) :
  exists out, clean_text (JStr text) = Ok out /\ single_spaced out.
Proof.
  destruct text as [|c text].
  - exists []. split; [done|]. intros u c v Heq. by destruct u.
  - rewrite clean_text_str by done. eexists. split; [reflexivity|].
    apply tidy_single_spaced.
Qed.

End Pipeline.

(** ** Properties of the channel table *)

Section SlackFacts.
Import Slack.

Lemma length_ljust width s : length (ljust width s) = max width (length s).
Proof. unfold ljust. rewrite length_app, length_replicate. lia. Qed.

Lemma length_row ch :
  length (row ch) =
  7 + max 21 (length (name ch)) + max 23 (length (id ch)).
Proof.
  unfold row. rewrite !length_app, !length_ljust.
  change (length (py "| ")) with 2. change (length (py " | ")) with 3.
  change (length (py " |")) with 2. lia.
Qed.

Lemma length_row_fits ch : length (row ch) = 51 <-> fits ch.
Proof. rewrite length_row. unfold fits. lia. Qed.

Lemma length_cell_min side i : 51 <= length (cell side i).
Proof.
  unfold cell. destruct (side !! i) as [ch|].
  - rewrite length_row. lia.
  - by rewrite length_replicate.
Qed.

Lemma mid_bounds n : (n + 1) / 2 <= n /\ n - (n + 1) / 2 <= (n + 1) / 2.
Proof.
  pose proof (Nat.div_mod_eq (n + 1) 2).
  pose proof (Nat.mod_upper_bound (n + 1) 2). lia.
Qed.

Lemma rows_count (channels : list channel) :
  max (length (take ((length channels + 1) / 2) channels))
    (length (drop ((length channels + 1) / 2) channels))
  = (length channels + 1) / 2.
Proof.
  rewrite length_take, length_drop.
  pose proof (mid_bounds (length channels)). lia.
Qed.

Lemma list_channels_length channels :
  length (list_channels channels) = (length channels + 1) / 2 + 4.
Proof.
  unfold list_channels. cbv zeta.
  rewrite !length_app, length_map, length_seq, rows_count.
  cbn [length]. lia.
Qed.

Lemma list_channels_row channels j :
  j < (length channels + 1) / 2 ->
  list_channels channels !! (3 + j) =
  Some (cell (take ((length channels + 1) / 2) channels) j ++ py "  "
        ++ cell (drop ((length channels + 1) / 2) channels) j).
Proof.
  intros Hj. unfold list_channels. cbv zeta. rewrite rows_count.
  rewrite lookup_app_r by (cbn [length]; lia).
  cbn [length]. replace (3 + j - 3) with j by lia.
  rewrite lookup_app_l by (by rewrite length_map, length_seq).
  rewrite list_lookup_fmap, lookup_seq_lt by done. done.
Qed.

Lemma list_channels_line channels i line :
  list_channels channels !! i = Some line ->
  0 < i < length (list_channels channels) - 1 ->
  (i = 1 /\ line = header ++ py "  " ++ header) \/
  (i = 2 /\ line = boundary ++ py "  " ++ boundary) \/
  (exists j, i = 3 + j /\ j < (length channels + 1) / 2 /\
     line = cell (take ((length channels + 1) / 2) channels) j ++ py "  "
            ++ cell (drop ((length channels + 1) / 2) channels) j).
Proof.
  rewrite list_channels_length. intros Hline Hi.
  destruct i as [|[|[|j]]]; [lia| | |].
  - left. split; [done|]. by injection Hline as <-.
  - right. left. split; [done|]. by injection Hline as <-.
  - right. right. exists j. split; [done|]. split; [lia|].
    change (S (S (S j))) with (3 + j) in Hline.
    rewrite list_channels_row in Hline by lia. by injection Hline as <-.
Qed.

Lemma length_line (a b : pystr) :
  length (a ++ py "  " ++ b) = length a + 2 + length b.
Proof.
  rewrite !length_app. change (length (py "  ")) with 2. lia.
Qed.

Lemma cell_fits side i :
  Forall fits side -> length (cell side i) = 51.
Proof.
  intros Hall. unfold cell. destruct (side !! i) as [ch|] eqn:Hch.
  - apply length_row_fits. by eapply Forall_lookup_1.
  - by rewrite length_replicate.
Qed.

(** X23: the rows are aligned exactly when every channel fits its
    columns.  The boundary line and the rows are all 104 characters wide
    if and only if no name is longer than 21 characters and no id longer
    than 23: a longer text is not cut, it lengthens its line.  The header
    line is 106 characters wide whatever the channels are: each of its two
    copies is one character wider than a row. *)
Theorem list_channels_aligned (channels : list channel) :
  ((forall i line,
      list_channels channels !! i = Some line ->
      1 < i < length (list_channels channels) - 1 ->
      length line = 104)
   <-> Forall fits channels) /\
  (exists line,
     list_channels channels !! 1 = Some line /\ length line = 106).
Proof.
  set (mid := (length channels + 1) / 2).
  pose proof (mid_bounds (length channels)) as [Hmid Hrest].
  fold mid in Hmid, Hrest.
  split; [split|].
  - intros Hlines. apply Forall_lookup_2. intros k ch Hk.
    pose proof (lookup_lt_Some _ _ _ Hk) as Hlt.
    assert (Hrow : forall j, j < mid ->
              length (cell (take mid channels) j) = 51 /\
              length (cell (drop mid channels) j) = 51).
    { intros j Hj.
      pose proof (Hlines (3 + j) _ (list_channels_row channels j Hj)) as Hl.
      rewrite list_channels_length, length_line in Hl. fold mid in Hl.
      pose proof (length_cell_min (take mid channels) j).
      pose proof (length_cell_min (drop mid channels) j).
      lia. }
    destruct (decide (k < mid)) as [Hlow | Hhigh].
    + destruct (Hrow k Hlow) as [Hl _].
      unfold cell in Hl. rewrite lookup_take_lt, Hk in Hl by done.
      by apply length_row_fits.
    + destruct (Hrow (k - mid)) as [_ Hr]; [lia|].
      unfold cell in Hr. rewrite lookup_drop in Hr.
      replace (mid + (k - mid)) with k in Hr by lia. rewrite Hk in Hr.
      by apply length_row_fits.
  - intros Hall i line Hline Hi.
    destruct (list_channels_line channels i line Hline ltac:(lia))
      as [[-> _] | [[_ ->] | (j & _ & Hj & ->)]];
      [lia | vm_compute; reflexivity |].
    rewrite length_line.
    rewrite !cell_fits; [done| |].
    + by apply Forall_drop.
    + by apply Forall_take.
  - eexists. split; [reflexivity|]. vm_compute. reflexivity.
Qed.

(** X24: every channel is listed, the first half down the left column
    and the rest down the right one, in the order of the answer.  With
    [mid] the half of the count, rounded up, the table has [mid] rows;
    the channel at index [i] is in row [i] on the left when [i < mid], and
    in row [i - mid] on the right otherwise. *)
Theorem list_channels_places (channels : list channel) (i : nat)
    (ch : channel) :
  channels !! i = Some ch ->
  let mid := (length channels + 1) / 2 in
  length (list_channels channels) = mid + 4 /\
  (i < mid ->
   exists right,
     list_channels channels !! (3 + i) = Some (row ch ++ py "  " ++ right)) /\
  (mid <= i ->
   exists left,
     list_channels channels !! (3 + (i - mid)) =
     Some (left ++ py "  " ++ row ch)).
Proof.
  intros Hi mid.
  pose proof (lookup_lt_Some _ _ _ Hi) as Hlt.
  pose proof (mid_bounds (length channels)) as [Hmid Hrest].
  fold mid in Hmid, Hrest.
  split; [apply list_channels_length|]. split.
  - intros Hlow. eexists.
    rewrite list_channels_row by done. fold mid.
    unfold cell at 1. rewrite lookup_take_lt, Hi by done. reflexivity.
  - intros Hhigh. eexists.
    rewrite list_channels_row by (fold mid; lia). fold mid.
    unfold cell at 2. rewrite lookup_drop.
    replace (mid + (i - mid)) with i by lia. rewrite Hi. reflexivity.
Qed.

End SlackFacts.

(** * The properties at work on the sample environments *)

(** The sanitizer returns a text on an unclosed markup fragment, here with
    a parser that rejects it. *)
Lemma clean_text_returns_text_witness :
  sanitizable (JStr (py "<div><span>text")) = true /\
  exists s,
    clean_text ascii_only ascii_only reject_all
      (JStr (py "<div><span>text")) = Ok s /\
    (Json.truthy (JStr (py "<div><span>text")) = false -> s = []).
Proof.
  split; [reflexivity|].
  apply (clean_text_returns_text ascii_only ascii_only reject_all).
  reflexivity.
Defined.

(** A number is no input of the sanitizer: on [5] it raises, whatever the
    libraries do. *)
Lemma clean_text_raises_on_number :
  ~ (exists uni_space uni_word html_strings s,
       clean_text uni_space uni_word html_strings (JInt 5) = Ok s).
Proof. intros (us & uw & hs & s & H). discriminate H. Qed.

Lemma clean_text_mapping_witness :
  structured_description <> [] /\
  clean_text ascii_only ascii_only cut_at_tags (JObj structured_description) =
  Ok (chr "{"
      :: join (py ", ")
           (map (fun '(k, x) => Json.dumps_str k ++ py ": " ++ Json.dumps x)
              structured_description)
      ++ [chr "}"]).
Proof.
  split; [discriminate|].
  apply (clean_text_mapping ascii_only ascii_only cut_at_tags).
  discriminate.
Defined.

(** On the empty mapping the sanitizer returns the empty text, which is not
    the two braces [json.dumps] prints for it. *)
Lemma clean_text_empty_mapping :
  ~ (exists uni_space uni_word html_strings,
       clean_text uni_space uni_word html_strings (JObj []) =
       Ok (Json.dumps (JObj []))).
Proof. intros (us & uw & hs & H). discriminate H. Qed.


Lemma normalize_missing_parent_witness :
  RawIssue.well_formed sparse_issue = true /\
  RawIssue.parent_missing (py "assignee") sparse_issue = true /\
  exists n,
    normalize_issue ascii_only ascii_only cut_at_tags sparse_issue = Ok n /\
    (RawIssue.parent_missing (py "status") sparse_issue = true ->
     JiraIssue.status n = None) /\
    (RawIssue.parent_missing (py "priority") sparse_issue = true ->
     JiraIssue.priority n = None) /\
    (RawIssue.parent_missing (py "assignee") sparse_issue = true ->
     JiraIssue.assignee n = None) /\
    (RawIssue.parent_missing (py "project") sparse_issue = true ->
     JiraIssue.project n = None).
Proof.
  split; [reflexivity|]. split; [reflexivity|].
  apply (normalize_missing_parent ascii_only ascii_only cut_at_tags).
  reflexivity.
Defined.

Lemma description_is_text_witness :
  RawIssue.well_formed sparse_issue = true /\
  RawIssue.description_of sparse_issue = JNull /\
  exists n s,
    normalize_issue ascii_only ascii_only cut_at_tags sparse_issue = Ok n /\
    JiraIssue.description n = Some s /\
    (RawIssue.description_of sparse_issue = JNull -> s = []).
Proof.
  split; [reflexivity|]. split; [reflexivity|].
  apply (description_is_text ascii_only ascii_only cut_at_tags).
  reflexivity.
Defined.

Lemma scenario_normalizes_witness :
  cut_at_tags scenario_markup =
    Some [py "Crash on "; py "login"; py " for bob@example.com"] /\
  normalize_issues ascii_only ascii_only cut_at_tags (JArr [scenario_issue]) =
  Ok [scenario_normalized].
Proof.
  split; [reflexivity|].
  apply (scenario_normalizes ascii_only ascii_only cut_at_tags).
  left. reflexivity.
Defined.

Lemma save_to_jsonl_round_trip_witness :
  unwritable world_up (py "jira_data.jsonl") = false /\
  serializable [scenario_normalized; sparse_normalized] = true /\
  exists w' content,
    save_to_jsonl [scenario_normalized; sparse_normalized]
      (py "jira_data.jsonl") world_up = (Ok tt, w') /\
    files w' !! py "jira_data.jsonl" = Some content /\
    content =
      flat_map (fun item => JiraIssue.to_json item ++ [LF])
        [scenario_normalized; sparse_normalized] /\
    (forall other, other <> py "jira_data.jsonl" ->
       files w' !! other = files world_up !! other) /\
    length (file_lines content) =
      length [scenario_normalized; sparse_normalized] /\
    Forall2 (fun line item =>
               JiraIssue.model_dump_json item = Ok line /\
               Reader.issue line = Some item)
      (file_lines content) [scenario_normalized; sparse_normalized].
Proof.
  split; [reflexivity|]. split; [reflexivity|].
  apply (save_to_jsonl_round_trip [scenario_normalized; sparse_normalized]
           (py "jira_data.jsonl") world_up); reflexivity.
Defined.

(** A record that holds a lone surrogate cannot be serialized: the save
    raises at it, the target keeps the one line written before, and not
    the two lines of the two records. *)
Lemma save_to_jsonl_lone_surrogate :
  let data := [sparse_normalized; surrogate_normalized] in
  let run := save_to_jsonl data (py "jira_data.jsonl") world_up in
  run.1 = Raise (PydanticSerializationError [55296%N]) /\
  (exists content,
     files run.2 !! py "jira_data.jsonl" = Some content /\
     file_lines content = [JiraIssue.to_json sparse_normalized]) /\
  ~ (exists w' content,
       run = (Ok tt, w') /\
       files w' !! py "jira_data.jsonl" = Some content /\
       length (file_lines content) = length data).
Proof.
  cbv zeta. split; [vm_compute; reflexivity|]. split.
  - eexists. split; vm_compute; reflexivity.
  - intros (w' & content & H & _). apply (f_equal fst) in H.
    vm_compute in H. discriminate H.
Qed.

(** The client is down and saving is requested: one failure, carrying the
    client's words, and the old file is as it was. *)
Lemma fetch_jira_tokens_fault_witness :
  query_fault save_request world_down (Fault (py "connection refused")) /\
  JiraFetchRequest.save_to_file save_request = true /\
  (fetch_jira_tokens ascii_only ascii_only cut_at_tags class_name_only
     save_request world_down).1 =
  Raise (HTTPException 500 (py "connection refused")) /\
  files (fetch_jira_tokens ascii_only ascii_only cut_at_tags class_name_only
           save_request world_down).2 = files world_down.
Proof.
  assert (Hq : query_fault save_request world_down
                 (Fault (py "connection refused")))
    by (split; reflexivity).
  split; [exact Hq|]. split; [reflexivity|].
  destruct (fetch_jira_tokens_fault ascii_only ascii_only cut_at_tags
              class_name_only save_request world_down
              (Fault (py "connection refused")) (or_introl Hq))
    as [Hraise Hfiles].
  split; [exact Hraise | exact (Hfiles (or_introl Hq))].
Defined.

Lemma fetch_jira_tokens_success_witness :
  queried save_request world_up = Ok (JArr [scenario_issue; sparse_issue]) /\
  normalize_issues ascii_only ascii_only cut_at_tags
    (JArr [scenario_issue; sparse_issue]) =
  Ok [scenario_normalized; sparse_normalized] /\
  exists response,
    (fetch_jira_tokens ascii_only ascii_only cut_at_tags class_name_only
       save_request world_up).1 = Ok response /\
    JiraFetchResponse.success response = true /\
    JiraFetchResponse.issues response =
      [scenario_normalized; sparse_normalized] /\
    JiraFetchResponse.count response =
      Z.of_nat (length (JiraFetchResponse.issues response)) /\
    (0 <= JiraFetchResponse.count response)%Z /\
    exists raws,
      iter (JArr [scenario_issue; sparse_issue]) = Ok raws /\
      Forall2
        (fun r n =>
           normalize_issue ascii_only ascii_only cut_at_tags r = Ok n)
        raws [scenario_normalized; sparse_normalized].
Proof.
  split; [reflexivity|]. split; [vm_compute; reflexivity|].
  apply (fetch_jira_tokens_success ascii_only ascii_only cut_at_tags
           class_name_only save_request world_up
           (JArr [scenario_issue; sparse_issue])
           [scenario_normalized; sparse_normalized]).
  - reflexivity.
  - vm_compute. reflexivity.
  - intros _. vm_compute. reflexivity.
Defined.

(** Runs of blanks, line feeds and a tab collapse, here with a parser
    that rejects the text. *)
Example ragged_sample :
  clean_text ascii_only ascii_only reject_all (JStr ragged_text) =
  Ok (py "a b c").
Proof. vm_compute. reflexivity. Qed.

(** The other two stages at which a run can fail, and a run that does not
    save. *)
Example normalization_fault_sample :
  fetch_jira_tokens ascii_only ascii_only cut_at_tags class_name_only
    save_request world_odd =
  (Raise (HTTPException 500 (py "'NoneType' object has no attribute 'get'")),
   (print (py "project = PRJ") world_odd).2).
Proof. vm_compute. reflexivity. Qed.

Example persistence_fault_sample :
  fetch_jira_tokens ascii_only ascii_only cut_at_tags class_name_only
    save_request world_read_only =
  (Raise (HTTPException 500 (py "OSError")),
   (print (py "project = PRJ") world_read_only).2).
Proof. vm_compute. reflexivity. Qed.

Example plain_request_sample :
  fetch_jira_tokens ascii_only ascii_only cut_at_tags class_name_only
    plain_request world_up =
  (Ok (JiraFetchResponse.mk 2 [scenario_normalized; sparse_normalized] true),
   (print (py "project = PRJ") world_up).2).
Proof. vm_compute. reflexivity. Qed.

(** A query that holds a lone surrogate: the [print] raises, outside the
    [try], and the world is as it was. *)
Example unprintable_query_sample :
  fetch_jira_tokens ascii_only ascii_only cut_at_tags class_name_only
    surrogate_request world_up =
  (Raise (UnicodeEncodeError [55296%N]), world_up).
Proof. vm_compute. reflexivity. Qed.

(** * The further properties at work *)

(** A priority that is [null]: the normalizer raises. *)
Lemma null_priority_raises_witness :
  normalize_issue ascii_only ascii_only cut_at_tags null_priority_issue =
  Raise (AttributeError JNull (py "get")).
Proof.
  refine (proj2 (null_priority_raises ascii_only ascii_only cut_at_tags
                   [(py "id", JStr (py "3"));
                    (py "fields", JObj [(py "priority", JNull)])]
                   [(py "priority", JNull)] JNull _ _ _) _ _);
    reflexivity.
Defined.

(** A request before start-up. *)
Lemma fetch_without_client_witness :
  jira_client world_cold = None /\
  fetch_jira_tokens ascii_only ascii_only cut_at_tags class_name_only
    save_request world_cold =
  (Raise (HTTPException 500 (py "Jira client not initialized")),
   World None old_files (fun _ => false) [py "project = PRJ"]) /\
  fetch_jira_tokens ascii_only ascii_only cut_at_tags class_name_only
    surrogate_request world_cold =
  (Raise (UnicodeEncodeError [55296%N]), world_cold).
Proof.
  split; [reflexivity|]. split.
  - apply (proj1 (fetch_without_client ascii_only ascii_only cut_at_tags
                    class_name_only save_request world_cold eq_refl)).
    reflexivity.
  - apply (proj2 (fetch_without_client ascii_only ascii_only cut_at_tags
                    class_name_only surrogate_request world_cold eq_refl)).
    reflexivity.
Defined.

(** The client answers without an [issues] key, and saving is requested:
    an empty response, and the stale file is emptied. *)
Lemma missing_issues_key_is_empty_witness :
  (fetch_jira_tokens ascii_only ascii_only cut_at_tags class_name_only
     save_request world_no_issues).1 = Ok (JiraFetchResponse.mk 0 [] true) /\
  (JiraFetchRequest.save_to_file save_request = true ->
   files (fetch_jira_tokens ascii_only ascii_only cut_at_tags class_name_only
            save_request world_no_issues).2
     !! JiraFetchRequest.filename save_request = Some []) /\
  (JiraFetchRequest.save_to_file save_request = false ->
   files (fetch_jira_tokens ascii_only ascii_only cut_at_tags class_name_only
            save_request world_no_issues).2 = files world_no_issues).
Proof.
  apply (missing_issues_key_is_empty ascii_only ascii_only cut_at_tags
           class_name_only save_request world_no_issues client_no_issues
           [(py "total", JInt 0)]); reflexivity.
Defined.

(** The client answers with [issues] set to [null]. *)
Lemma malformed_answer_fails_witness :
  (fetch_jira_tokens ascii_only ascii_only cut_at_tags class_name_only
     save_request world_null_issues).1 =
  Raise (HTTPException 500 (py "'NoneType' object is not iterable")).
Proof.
  refine (proj2 (malformed_answer_fails ascii_only ascii_only cut_at_tags
                   class_name_only save_request world_null_issues
                   client_null_issues (JObj [(py "issues", JNull)]) _ _ _)
            [(py "issues", JNull)] JNull _ _ _);
    reflexivity.
Defined.

(** A run that saves: the file read back gives the issues of the
    response. *)
Lemma saved_file_is_response_witness :
  exists content,
    files (fetch_jira_tokens ascii_only ascii_only cut_at_tags
             class_name_only save_request world_up).2
      !! py "jira_data.jsonl" = Some content /\
    content = jsonl [scenario_normalized; sparse_normalized] /\
    Forall2 (fun line item => Reader.issue line = Some item)
      (file_lines content) [scenario_normalized; sparse_normalized].
Proof.
  apply (saved_file_is_response ascii_only ascii_only cut_at_tags
           class_name_only save_request world_up
           (fetch_jira_tokens ascii_only ascii_only cut_at_tags
              class_name_only save_request world_up).2
           (JiraFetchResponse.mk 2 [scenario_normalized; sparse_normalized]
              true)).
  - vm_compute. reflexivity.
  - reflexivity.
Defined.

Lemma save_to_jsonl_last_wins_witness :
  unwritable world_up (py "jira_data.jsonl") = false /\
  files (save_to_jsonl [sparse_normalized] (py "jira_data.jsonl")
           (save_to_jsonl [scenario_normalized] (py "jira_data.jsonl")
              world_up).2).2 =
  files (save_to_jsonl [sparse_normalized] (py "jira_data.jsonl")
           world_up).2.
Proof.
  split; [reflexivity|].
  apply (save_to_jsonl_last_wins [scenario_normalized] [sparse_normalized]
           (py "jira_data.jsonl") world_up).
  reflexivity.
Defined.

(** The first URL is set but empty: the client is built for the second. *)
Lemma initialize_jira_client_url_witness :
  jira_client (initialize_jira_client fallback_environ echo_Jira world_cold).2
  = Some (echo_Jira (py "https://b.example") (py "bot") (py "secret") true).
Proof.
  refine (proj2 (initialize_jira_client_url fallback_environ echo_Jira
                   world_cold (py "bot") (py "secret") _ _ _ _)
            (py "https://b.example") _ _ _);
    first [discriminate | vm_compute; reflexivity].
Defined.

Lemma normalize_issue_paths_witness :
  normalize_issue ascii_only ascii_only cut_at_tags sparse_issue =
    Ok sparse_normalized /\
  exists description,
    clean_text ascii_only ascii_only cut_at_tags
      (RawIssue.description_of sparse_issue) = Ok description /\
    sparse_normalized =
    JiraIssue.mk
      (RawIssue.at_path [py "id"] sparse_issue)
      (RawIssue.at_path [py "key"] sparse_issue)
      (RawIssue.at_path [py "fields"; py "summary"] sparse_issue)
      (Some description)
      (RawIssue.at_path [py "fields"; py "status"; py "name"] sparse_issue)
      (RawIssue.at_path [py "fields"; py "priority"; py "name"] sparse_issue)
      (RawIssue.at_path [py "fields"; py "created"] sparse_issue)
      (RawIssue.at_path [py "fields"; py "assignee"; py "displayName"]
         sparse_issue)
      (RawIssue.at_path [py "fields"; py "project"; py "name"] sparse_issue).
Proof.
  assert (H : normalize_issue ascii_only ascii_only cut_at_tags sparse_issue =
              Ok sparse_normalized) by (vm_compute; reflexivity).
  split; [exact H|].
  exact (normalize_issue_paths ascii_only ascii_only cut_at_tags sparse_issue
           sparse_normalized H).
Defined.

(** The second issue of the batch is malformed: no record is returned, not
    even that of the first. *)
Lemma normalize_issues_first_failure_witness :
  normalize_issues ascii_only ascii_only cut_at_tags (JArr mixed_batch) =
  Raise (AttributeError JNull (py "get")).
Proof.
  apply (normalize_issues_first_failure ascii_only ascii_only cut_at_tags
           mixed_batch 1 null_priority_issue).
  - reflexivity.
  - vm_compute. reflexivity.
  - intros [|j] r' Hj; [intros [= <-]; reflexivity | lia].
Defined.

Lemma falsy_assignee_is_absent_witness :
  RawIssue.well_formed unassigned_issue = true /\
  exists n,
    normalize_issue ascii_only ascii_only cut_at_tags unassigned_issue =
      Ok n /\
    (forall v,
       Json.lookup (py "assignee")
         [(py "assignee", JNull); (py "project", JNull);
          (py "extra", JInt 7)] = Some v ->
       Json.truthy v = false -> JiraIssue.assignee n = None) /\
    (forall v,
       Json.lookup (py "project")
         [(py "assignee", JNull); (py "project", JNull);
          (py "extra", JInt 7)] = Some v ->
       Json.truthy v = false -> JiraIssue.project n = None).
Proof.
  split; [reflexivity|].
  apply (falsy_assignee_is_absent ascii_only ascii_only cut_at_tags
           unassigned_issue); reflexivity.
Defined.

(** A key the normalizer does not read, and the order of the keys, make no
    difference. *)
Lemma normalize_issue_reads_paths_witness :
  normalize_issue ascii_only ascii_only cut_at_tags
    (JObj [(py "id", JStr (py "4"));
           (py "fields",
            JObj [(py "summary", JStr (py "Typo"));
                  (py "extra", JInt 7)])]) =
  normalize_issue ascii_only ascii_only cut_at_tags
    (JObj [(py "self", JStr (py "https://a.example/4"));
           (py "fields", JObj [(py "summary", JStr (py "Typo"))]);
           (py "id", JStr (py "4"))]).
Proof.
  apply (normalize_issue_reads_paths ascii_only ascii_only cut_at_tags
           _ _
           [(py "summary", JStr (py "Typo")); (py "extra", JInt 7)]
           [(py "summary", JStr (py "Typo"))]).
  - reflexivity.
  - reflexivity.
  - intros k Hk.
    repeat (apply elem_of_cons in Hk as [-> | Hk]; [reflexivity|]).
    by apply elem_of_nil in Hk.
  - intros k Hk.
    repeat (apply elem_of_cons in Hk as [-> | Hk]; [reflexivity|]).
    by apply elem_of_nil in Hk.
Defined.

Lemma redact_emails_needs_at_witness :
  redact_emails ascii_only (py "see the release notes") =
  py "see the release notes".
Proof.
  apply (redact_emails_needs_at ascii_only (py "see the release notes")).
  intros Hin.
  repeat (apply elem_of_cons in Hin as [Hin | Hin]; [discriminate Hin|]).
  by apply elem_of_nil in Hin.
Defined.

(** The parser rejects an unclosed fragment: the tags are deleted. *)
Lemma fallback_only_deletes_witness :
  reject_all (py "<div><span>text") = None /\
  exists stripped,
    clean_text ascii_only ascii_only reject_all (JStr (py "<div><span>text")) =
      Ok (tidy ascii_only ascii_only stripped) /\
    stripped `sublist_of` py "<div><span>text" /\
    (chr "<" ∉ py "<div><span>text" \/ chr ">" ∉ py "<div><span>text" ->
     stripped = py "<div><span>text").
Proof.
  split; [reflexivity|].
  apply (fallback_only_deletes ascii_only ascii_only reject_all
           (py "<div><span>text")).
  reflexivity.
Defined.

(** An address inside a structured description stays in the record. *)
Lemma mapping_is_not_redacted_witness :
  exists out,
    clean_text ascii_only ascii_only cut_at_tags
      (JObj structured_with_address) = Ok out /\
    (exists u v, out = u ++ py "bob@example.com" ++ v) /\
    ~ Re.free_of (email_re ascii_only) out.
Proof.
  destruct (mapping_is_not_redacted ascii_only ascii_only cut_at_tags
              structured_with_address (py "text") (py "bob@example.com"))
    as (out & Hout & Hin & Hfree).
  - right. left. reflexivity.
  - reflexivity.
  - exists out. split; [exact Hout|]. split; [exact Hin|].
    apply Hfree.
    apply (match_at_sound (email_re ascii_only) (py "bob@example.com") 15).
    reflexivity.
Defined.

(** Three channels: two rows, the third channel in the first row on the
    right. *)
Lemma list_channels_places_witness :
  length (Slack.list_channels
            [Slack.general; Slack.random; Slack.releases]) = 6 /\
  exists left,
    Slack.list_channels [Slack.general; Slack.random; Slack.releases] !! 3 =
    Some (left ++ py "  " ++ Slack.row Slack.releases).
Proof.
  pose proof (list_channels_places
                [Slack.general; Slack.random; Slack.releases] 2
                Slack.releases eq_refl) as H.
  cbv zeta in H. destruct H as (Hlen & _ & Hright).
  split; [exact Hlen|]. apply Hright. vm_compute. lia.
Defined.
